(** * Simple Storage Service (app.py): buckets, files and their consistency

    A shallow embedding of the request handlers of [app.py] and of the
    helpers they call, followed by the properties of the bucket/file model.

    Conventions of the embedding.
    - A Python [str] is a [string]; a character is a code point below 256,
      and [isalnum], [lower] and [strip] are Python's on that range.
    - The storage root [STORAGE_PATH] is a finite map from names to nodes
      (a regular file, or a directory with its entries); a file carries its
      bytes and its modification time.  A file name is one ordinary
      component of a path (no slash, and neither "." nor ".."), and the
      host refuses a name of more than 255 bytes and a path of 4096 bytes
      or more.
    - The table of [Bucket] rows is a list in insertion order.
    - A handler is a function from the state of the service to a response
      (body and HTTP status, as in [return jsonify(...), code]) and the new
      state.  A raised exception is a value of [exn]; every [try/except] of
      the source is a [match] on it.  The exceptions are those the request
      and the state decide; a fault of the host (a full disk, a database
      that cannot be written) is not modelled.
    - [datetime.now()] reads an oracle [clock]; the state counts the reads.
    - [werkzeug.utils.secure_filename] and [mimetypes.guess_type] come from
      outside the repository and are parameters of the File Store. *)

From Stdlib Require Import ZArith QArith Qround Qabs Lqa Ascii DecimalString Sorted.
From stdpp Require Import gmap strings list fin_maps.

Local Open Scope Z_scope.

(** ** Python strings *)

Module Py.

Definition ord (c : ascii) : N := N_of_ascii c.

Definition between (lo hi n : N) : bool := ((lo <=? n) && (n <=? hi))%N.

(** [str.isalnum] on one code point below 256. *)
Definition isalnum_char (c : ascii) : bool :=
  let n := ord c in
  between 48 57 n || between 65 90 n || between 97 122 n
  || (n =? 170)%N || (n =? 178)%N || (n =? 179)%N || (n =? 181)%N
  || (n =? 185)%N || (n =? 186)%N || between 188 190 n
  || between 192 214 n || between 216 246 n || between 248 255 n.

(** [str.isspace] on one code point below 256. *)
Definition isspace_char (c : ascii) : bool :=
  let n := ord c in
  between 9 13 n || between 28 32 n || (n =? 133)%N || (n =? 160)%N.

(** The code points below 256 that [str.lower] changes. *)
Definition isupper_char (c : ascii) : bool :=
  let n := ord c in
  between 65 90 n || between 192 214 n || between 216 222 n.

Definition lower_char (c : ascii) : ascii :=
  if isupper_char c then ascii_of_N (ord c + 32) else c.

Fixpoint lower (s : string) : string :=
  match s with
  | EmptyString => EmptyString
  | String c s' => String (lower_char c) (lower s')
  end.

Fixpoint contains_char (c : ascii) (s : string) : bool :=
  match s with
  | EmptyString => false
  | String d s' => if decide (c = d) then true else contains_char c s'
  end.

Fixpoint lstrip_by (p : ascii -> bool) (s : string) : string :=
  match s with
  | EmptyString => EmptyString
  | String c s' => if p c then lstrip_by p s' else s
  end.

Fixpoint rstrip_by (p : ascii -> bool) (s : string) : string :=
  match s with
  | EmptyString => EmptyString
  | String c s' =>
      match rstrip_by p s' with
      | EmptyString => if p c then EmptyString else String c EmptyString
      | r => String c r
      end
  end.

(** [s.strip()] *)
Definition strip (s : string) : string :=
  rstrip_by isspace_char (lstrip_by isspace_char s).

(** [s.strip(chars)] *)
Definition strip_chars (chars s : string) : string :=
  rstrip_by (fun c => contains_char c chars)
            (lstrip_by (fun c => contains_char c chars) s).

Definition len (s : string) : Z := Z.of_nat (String.length s).

(** [len(os.fsencode(s))]: the bytes of the name on disk, in UTF-8 one
    for a code point below 128 and two for the others below 256. *)
Fixpoint fsencode_len (s : string) : Z :=
  match s with
  | EmptyString => 0
  | String c s' => (if (ord c <? 128)%N then 1 else 2) + fsencode_len s'
  end.

Fixpoint all_chars (p : ascii -> bool) (s : string) : bool :=
  match s with
  | EmptyString => true
  | String c s' => p c && all_chars p s'
  end.

(** [s.isalnum()]: false on the empty string. *)
Definition isalnum (s : string) : bool :=
  match s with
  | EmptyString => false
  | _ => all_chars isalnum_char s
  end.

(** [s.replace(old, new)] for a one-character [old]. *)
Fixpoint replace (old : ascii) (new : string) (s : string) : string :=
  match s with
  | EmptyString => EmptyString
  | String c s' =>
      if decide (c = old) then new +:+ replace old new s'
      else String c (replace old new s')
  end.

(** [s.rsplit('.', 1)] when ['.' in s]: the text before the last dot and
    the text after it; [None] when [s] has no dot. *)
Fixpoint rsplit_dot (s : string) : option (string * string) :=
  match s with
  | EmptyString => None
  | String c s' =>
      match rsplit_dot s' with
      | Some (a, b) => Some (String c a, b)
      | None => if decide (c = "."%char) then Some (EmptyString, s') else None
      end
  end.

Definition str_of_Z (n : Z) : string := NilZero.string_of_int (Z.to_int n).

Definition digit (n : Z) : ascii := ascii_of_N (48 + Z.to_N (n mod 10)).

(** [%02d] and [%04d] *)
Definition pad2 (n : Z) : string :=
  String (digit (n / 10)) (String (digit n) EmptyString).
Definition pad4 (n : Z) : string := pad2 (n / 100) +:+ pad2 n.

(** Nearest integer, ties to the even one: the rounding of [format]. *)
Definition round_half_even (q : Q) : Z :=
  let f := Qfloor q in
  match (q - inject_Z f ?= 1 # 2)%Q with
  | Lt => f
  | Gt => f + 1
  | Eq => if Z.even f then f else f + 1
  end.

(** [f"{x:.1f}"] *)
Definition format_1f (x : Q) : string :=
  let t := round_half_even (Qabs x * 10) in
  (if Qle_bool 0 x then "" else "-") +:+ str_of_Z (t / 10) +:+ "." +:+ String (digit t) EmptyString.

End Py.

(** ** Data model *)

Record datetime := mk_datetime
  { year : Z; month : Z; day : Z; hour : Z; minute : Z; second : Z }.

#[global] Instance datetime_eq_dec : EqDecision datetime.
Proof. solve_decision. Defined.

(** [strftime('%Y-%m-%d %H:%M:%S')] *)
Definition strftime_display (t : datetime) : string :=
  Py.pad4 (year t) +:+ "-" +:+ Py.pad2 (month t) +:+ "-" +:+ Py.pad2 (day t)
  +:+ " " +:+ Py.pad2 (hour t) +:+ ":" +:+ Py.pad2 (minute t) +:+ ":" +:+ Py.pad2 (second t).

(** [strftime('%Y%m%d_%H%M%S')] *)
Definition strftime_suffix (t : datetime) : string :=
  Py.pad4 (year t) +:+ Py.pad2 (month t) +:+ Py.pad2 (day t)
  +:+ "_" +:+ Py.pad2 (hour t) +:+ Py.pad2 (minute t) +:+ Py.pad2 (second t).

(** The JSON form of a row, [Bucket.to_dict]. *)
Record bucket_dict := mk_bucket_dict
  { d_id : Z; d_name : string; d_created_at : string }.

(** The [Bucket] model: one row of the table. *)
Module Bucket.
Record t := mk { id : Z; name : string; created_at : datetime }.

Definition to_dict (self : t) : bucket_dict :=
  {| d_id := id self; d_name := name self;
     d_created_at := strftime_display (created_at self) |}.
End Bucket.

(** What a bucket directory holds: regular files and, if something outside
    the service put them there, subdirectories. *)
Inductive entry :=
  | File (content : string) (mtime : datetime)
  | Subdir.

#[global] Instance entry_eq_dec : EqDecision entry.
Proof. solve_decision. Defined.

(** What the storage root holds under a name. *)
Inductive node :=
  | RegularFile
  | Directory (entries : gmap string entry).

(** The exceptions the modelled calls raise. *)
Inductive exn :=
  | FileExistsError
  | FileNotFoundError
  | NotADirectoryError
  | IsADirectoryError
  | OSError_ENOTEMPTY
  | OSError_ENAMETOOLONG
  | AttributeError
  | IntegrityError.

(** The state of the service: the [bucket] table, the tree under
    [STORAGE_PATH], and the number of clock reads so far. *)
Record World := mk_world
  { db : list Bucket.t; fs : gmap string node; reads : nat }.

(** *** The table *)

(** [Bucket.query.filter_by(name=n).first()] *)
Definition query_first (n : string) (rows : list Bucket.t) : option Bucket.t :=
  find (fun b => bool_decide (Bucket.name b = n)) rows.

(** The key given to a new row: one more than the largest in the table. *)
Definition next_id (rows : list Bucket.t) : Z :=
  1 + foldr Z.max 0 (map Bucket.id rows).

(** [db.session.add(b); db.session.commit()], with the [unique] constraint
    on [name]: the commit goes through unless the constraint refuses the
    row. *)
Definition session_add (n : string) (now : datetime) (rows : list Bucket.t)
  : exn + (Bucket.t * list Bucket.t) :=
  match query_first n rows with
  | Some _ => inl IntegrityError
  | None =>
      let b := Bucket.mk (next_id rows) n now in
      inr (b, rows ++ [b])
  end.

(** [db.session.delete(b); db.session.commit()] *)
Definition session_delete (b : Bucket.t) (rows : list Bucket.t) : list Bucket.t :=
  filter (fun r => Bucket.id r ≠ Bucket.id b) rows.

(** *** The filesystem under [STORAGE_PATH] *)

Module Path.

(** [str(STORAGE_PATH / b)] and [str(STORAGE_PATH / b / f)] *)
Definition str (b : string) : string := "storage/buckets/" +:+ b.
Definition str_file (b f : string) : string := str b +:+ "/" +:+ f.

(** The limits of the host (Linux): a name of more than [NAME_MAX]
    bytes and a path of [PATH_MAX] bytes or more are refused with
    ENAMETOOLONG. *)
Definition NAME_MAX : Z := 255.
Definition PATH_MAX : Z := 4096.

Definition name_too_long (name : string) : bool :=
  NAME_MAX <? Py.fsencode_len name.

Definition path_too_long (b f : string) : bool :=
  PATH_MAX <=? Py.fsencode_len (str_file b f).

(* The directory of a bucket is reached under the name of its row, at
   most 50 characters in every state the service reaches, so the limits
   do not bear on the four operations on directories; the names of
   files come from the requests and do meet them. *)

(** [(STORAGE_PATH / b).exists()] *)
Definition exists_ (root : gmap string node) (b : string) : bool :=
  bool_decide (is_Some (root !! b)).

(** [(STORAGE_PATH / b).mkdir(exist_ok=True)] *)
Definition mkdir_exist_ok (root : gmap string node) (b : string)
  : exn + gmap string node :=
  match root !! b with
  | None => inr (<[b := Directory ∅]> root)
  | Some (Directory _) => inr root
  | Some RegularFile => inl FileExistsError
  end.

(** [(STORAGE_PATH / b).iterdir()], in the order of the directory. *)
Definition iterdir (root : gmap string node) (b : string)
  : exn + list (string * entry) :=
  match root !! b with
  | None => inl FileNotFoundError
  | Some RegularFile => inl NotADirectoryError
  | Some (Directory d) => inr (map_to_list d)
  end.

(** [f.is_file()] for an item of [iterdir()] *)
Definition is_file (item : string * entry) : bool :=
  match item.2 with File _ _ => true | Subdir => false end.

(** [(STORAGE_PATH / b).rmdir()] *)
Definition rmdir (root : gmap string node) (b : string)
  : exn + gmap string node :=
  match root !! b with
  | None => inl FileNotFoundError
  | Some RegularFile => inl NotADirectoryError
  | Some (Directory d) =>
      if decide (d = ∅) then inr (delete b root) else inl OSError_ENOTEMPTY
  end.

(** [os.stat(STORAGE_PATH / b / f)], the call behind [exists()]: the
    entry at the path, [None] when there is none (ENOENT, or ENOTDIR
    when [b] is a regular file), and ENAMETOOLONG when the path is too
    long or the walk meets a name that is. *)
Definition stat (root : gmap string node) (b f : string) : exn + option entry :=
  if path_too_long b f then inl OSError_ENAMETOOLONG
  else
    match root !! b with
    | None => if name_too_long b then inl OSError_ENAMETOOLONG else inr None
    | Some RegularFile => inr None
    | Some (Directory d) =>
        if name_too_long f then inl OSError_ENAMETOOLONG else inr (d !! f)
    end.

(** What is at [STORAGE_PATH / b / f], if anything. *)
Definition lookup (root : gmap string node) (b f : string) : option entry :=
  match stat root b f with
  | inr e => e
  | inl _ => None
  end.

(** [(STORAGE_PATH / b / f).exists()]: ENAMETOOLONG is not among the
    errors that [exists()] turns into [False]. *)
Definition file_exists (root : gmap string node) (b f : string) : exn + bool :=
  match stat root b f with
  | inr e => inr (bool_decide (is_Some e))
  | inl e => inl e
  end.

(** [file.save(str(STORAGE_PATH / b / f))]: the bytes written, with the
    time of the write. *)
Definition save (root : gmap string node) (b f : string)
    (content : string) (now : datetime) : exn + gmap string node :=
  if path_too_long b f then inl OSError_ENAMETOOLONG
  else
    match root !! b with
    | None =>
        inl (if name_too_long b then OSError_ENAMETOOLONG else FileNotFoundError)
    | Some RegularFile => inl NotADirectoryError
    | Some (Directory d) =>
        if name_too_long f then inl OSError_ENAMETOOLONG
        else
          match d !! f with
          | Some Subdir => inl IsADirectoryError
          | _ => inr (<[b := Directory (<[f := File content now]> d)]> root)
          end
    end.

(** [(STORAGE_PATH / b / f).unlink()] *)
Definition unlink (root : gmap string node) (b f : string)
  : exn + gmap string node :=
  if path_too_long b f then inl OSError_ENAMETOOLONG
  else
    match root !! b with
    | None =>
        inl (if name_too_long b then OSError_ENAMETOOLONG else FileNotFoundError)
    | Some RegularFile => inl NotADirectoryError
    | Some (Directory d) =>
        if name_too_long f then inl OSError_ENAMETOOLONG
        else
          match d !! f with
          | None => inl FileNotFoundError
          | Some Subdir => inl IsADirectoryError
          | Some (File _ _) => inr (<[b := Directory (delete f d)]> root)
          end
    end.

(** [Path(...).suffix] of a file name. *)
Definition suffix (f : string) : string :=
  match Py.rsplit_dot f with
  | Some (String _ _, String c ext) => "." +:+ String c ext
  | _ => ""
  end.

End Path.

(** ** Helpers of app.py *)

Definition ALLOWED_EXTENSIONS : list string :=
  ["txt"; "pdf"; "png"; "jpg"; "jpeg"; "gif"; "bmp"; "svg"; "webp"].

(** [allowed_file]: the name has a dot and what follows the last dot,
    lowercased, is an allowed extension. *)
Definition allowed_file (filename : string) : bool :=
  match Py.rsplit_dot filename with
  | None => false
  | Some (_, ext) => bool_decide (Py.lower ext ∈ ALLOWED_EXTENSIONS)
  end.

Definition size_names : list string := ["B"; "KB"; "MB"; "GB"].

(** The [while] loop of [format_file_size].  The quotient by [1024.0] is
    kept as an exact rational: dividing a binary float by a power of two
    is exact, so this is the float's value for every size below 2^53. *)
Fixpoint scale (fuel : nat) (size_bytes : Q) (i : nat) : Q * nat :=
  match fuel with
  | O => (size_bytes, i)
  | S fuel' =>
      if Qle_bool 1024 size_bytes && (i <? length size_names - 1)%nat
      then scale fuel' (size_bytes / 1024)%Q (S i)
      else (size_bytes, i)
  end.

Definition format_file_size (size_bytes : Z) : string :=
  if size_bytes =? 0 then "0 B"
  else
    let '(x, i) := scale (length size_names) (inject_Z size_bytes) 0 in
    Py.format_1f x +:+ " " +:+ nth i size_names "".

Definition is_valid_bucket_name (name : string) : bool * string :=
  if bool_decide (name = "") || (Py.len name <? 3) then
    (false, "Name must be at least 3 characters")
  else if 50 <? Py.len name then
    (false, "Name too long (max 50 characters)")
  else if negb (Py.isalnum (Py.replace "_" "" (Py.replace "-" "" name))) then
    (false, "Only letters, numbers, dash and underscore allowed")
  else (true, "Valid name").

(** [create_bucket_folder]: the [except] branch is the [inl]. *)
Definition create_bucket_folder (bucket_name : string) (root : gmap string node)
  : exn + gmap string node :=
  Path.mkdir_exist_ok root bucket_name.

(** ** Requests and responses *)

(** A value under a key of the JSON body: a string, or anything else. *)
Inductive json := JStr (s : string) | JOther.

(** An uploaded part: [file.filename] and the bytes of its stream. *)
Record FileStorage := mk_file { filename : string; stream : string }.

(** The dictionary built by [get_file_info]. *)
Module FileInfo.
Record t := mk
  { name : string; size : Z; size_formatted : string;
    modified : string; type : string; extension : string }.
End FileInfo.

(** The dictionary built by [get_bucket]. *)
Record bucket_info := mk_bucket_info
  { i_bucket : bucket_dict; folder_exists : bool; file_count : Z;
    total_size : string; folder_path : string; files : list FileInfo.t }.

(** One line of the [errors] list of an upload. *)
Inductive file_error :=
  | TypeNotAllowed (filename : string)
  | InvalidFilename (filename : string)
  | FailedToSave (filename : string) (e : exn).

Inductive resource := TheBucket | TheFile.
Inductive folder_op := CreatingFolder | DeletingFolder.

(** The error envelopes, one constructor for each [return] with
    ['success': False]. *)
Inductive error :=
  | MissingName
  | Invalid (message : string)
  | Conflict (bucket_name : string)
  | NotFound (what : resource) (name : string)
  | NonEmpty (count : nat)
  | IOError (op : folder_op) (e : exn)
  | NoFilesProvided
  | NoFilesSelected
  | NoFilesUploaded (errors : list file_error)
  | Unexpected (e : exn).

(** The success envelopes, one constructor for each [return] with
    ['success': True], and the two [send_file] calls. *)
Inductive result :=
  | BucketList (buckets : list bucket_dict) (count : nat)
  | Created (bucket : bucket_dict)
  | BucketDetail (bucket : bucket_info)
  | BucketDeleted (bucket_name : string)
  | Uploaded (files : list FileInfo.t) (errors : option (list file_error))
  | FileList (files : list FileInfo.t) (count : nat)
  | Inline (content : string) (mimetype : string)
  | Attachment (content : string) (download_name : string)
  | FileDeleted (filename : string).

Inductive body := Success (r : result) | Failure (e : error).

(** The ['success'] field of the envelope. *)
Definition success (b : body) : bool :=
  match b with Success _ => true | Failure _ => false end.

(** A response: the body and the HTTP status. *)
Definition response : Type := body * Z.

(** ** The request handlers *)

Section Service.

(** The [k]-th reading of the system clock. *)
Variable clock : nat -> datetime.
(** [werkzeug.utils.secure_filename]; what it returns is joined to the
    path of the bucket as one component. *)
Variable secure_filename : string -> string.
(** [mimetypes.guess_type(path)[0]] *)
Variable guess_type : string -> option string.

(** [get_file_info] on a regular file of bucket [b]: its [stat] cannot
    fail here, so the [except] branch is not taken. *)
Definition get_file_info (b f content : string) (mtime : datetime) : FileInfo.t :=
  let st_size := Py.len content in
  {| FileInfo.name := f;
     FileInfo.size := st_size;
     FileInfo.size_formatted := format_file_size st_size;
     FileInfo.modified := strftime_display mtime;
     FileInfo.type :=
       match guess_type (Path.str_file b f) with
       | Some (String c m) => String c m
       | _ => "unknown"
       end;
     FileInfo.extension := Py.lower (Path.suffix f) |}.

(** The [get_file_info] of every regular file among the items. *)
Fixpoint files_info (b : string) (items : list (string * entry)) : list FileInfo.t :=
  match items with
  | [] => []
  | (f, File content mtime) :: rest => get_file_info b f content mtime :: files_info b rest
  | (_, Subdir) :: rest => files_info b rest
  end.

Definition list_buckets (w : World) : response * World :=
  let bucket_list := map Bucket.to_dict (db w) in
  ((Success (BucketList bucket_list (length bucket_list)), 200), w).

(** [data] is [request.get_json()] for a body that parses to null
    ([None]) or to an object (its fields); [not data] holds of null and
    of the object without fields. *)
Definition create_bucket (data : option (gmap string json)) (w : World)
  : response * World :=
  match data ≫= (.!! "name") with
  | None => ((Failure MissingName, 400), w)
  | Some JOther => ((Failure (Unexpected AttributeError), 500), w)
  | Some (JStr raw) =>
      let bucket_name := Py.lower (Py.strip raw) in
      let '(is_valid, message) := is_valid_bucket_name bucket_name in
      if negb is_valid then ((Failure (Invalid message), 400), w)
      else
        match query_first bucket_name (db w) with
        | Some _ => ((Failure (Conflict bucket_name), 409), w)
        | None =>
            match create_bucket_folder bucket_name (fs w) with
            | inl e => ((Failure (IOError CreatingFolder e), 500), w)
            | inr root =>
                match session_add bucket_name (clock (reads w)) (db w) with
                | inl e =>
                    ((Failure (Unexpected e), 500), mk_world (db w) root (reads w))
                | inr (new_bucket, rows) =>
                    ((Success (Created (Bucket.to_dict new_bucket)), 201),
                     mk_world rows root (S (reads w)))
                end
            end
        end
  end.

Definition get_bucket (bucket_name : string) (w : World) : response * World :=
  match query_first bucket_name (db w) with
  | None => ((Failure (NotFound TheBucket bucket_name), 404), w)
  | Some bucket =>
      let exists_ := Path.exists_ (fs w) bucket_name in
      let listing :=
        if exists_ then Path.iterdir (fs w) bucket_name else inr [] in
      match listing with
      | inl e => ((Failure (Unexpected e), 500), w)
      | inr items =>
          let infos := files_info bucket_name items in
          let total := foldr Z.add 0 (map FileInfo.size infos) in
          ((Success (BucketDetail
              {| i_bucket := Bucket.to_dict bucket;
                 folder_exists := exists_;
                 file_count := Z.of_nat (length infos);
                 total_size := format_file_size total;
                 folder_path := Path.str bucket_name;
                 files := infos |}), 200), w)
      end
  end.

Definition delete_bucket (bucket_name : string) (w : World) : response * World :=
  match query_first bucket_name (db w) with
  | None => ((Failure (NotFound TheBucket bucket_name), 404), w)
  | Some bucket =>
      let deleted root :=
        ((Success (BucketDeleted bucket_name), 200),
         mk_world (session_delete bucket (db w)) root (reads w)) in
      if Path.exists_ (fs w) bucket_name then
        match Path.iterdir (fs w) bucket_name with
        | inl e => ((Failure (Unexpected e), 500), w)
        | inr items =>
            let files := List.filter Path.is_file items in
            if negb (bool_decide (files = [])) then
              ((Failure (NonEmpty (length files)), 400), w)
            else
              match Path.rmdir (fs w) bucket_name with
              | inl e => ((Failure (IOError DeletingFolder e), 500), w)
              | inr root => deleted root
              end
        end
      else deleted (fs w)
  end.

(** The name given to an upload whose name is taken. *)
Definition collision_name (filename timestamp : string) : string :=
  let '(name, ext) := default (filename, "") (Py.rsplit_dot filename) in
  if bool_decide (ext = "") then name +:+ "_" +:+ timestamp
  else name +:+ "_" +:+ timestamp +:+ "." +:+ ext.

(** The variables of the loop of [upload_file]. *)
Record upload_state := mk_upload
  { u_root : gmap string node; u_reads : nat;
    uploaded_files : list FileInfo.t; errors : list file_error }.

(** One turn of the loop [for file in files].  The test
    [file_path.exists()] stands outside the [try] of the turn: what it
    raises ends the loop. *)
Definition upload_one (bucket_name : string) (st : upload_state)
    (file : FileStorage) : exn + upload_state :=
  if bool_decide (filename file = "") then inr st
  else if negb (allowed_file (filename file)) then
    inr (mk_upload (u_root st) (u_reads st) (uploaded_files st)
                   (errors st ++ [TypeNotAllowed (filename file)]))
  else
    let sanitized := secure_filename (filename file) in
    if bool_decide (sanitized = "") then
      inr (mk_upload (u_root st) (u_reads st) (uploaded_files st)
                     (errors st ++ [InvalidFilename (filename file)]))
    else
      match Path.file_exists (u_root st) bucket_name sanitized with
      | inl e => inl e
      | inr taken =>
          let '(target, r) :=
            if taken then
              (collision_name sanitized (strftime_suffix (clock (u_reads st))),
               S (u_reads st))
            else (sanitized, u_reads st) in
          match Path.save (u_root st) bucket_name target (stream file) (clock r) with
          | inr root =>
              inr (mk_upload root (S r)
                     (uploaded_files st
                        ++ [get_file_info bucket_name target (stream file) (clock r)])
                     (errors st))
          | inl e =>
              inr (mk_upload (u_root st) r (uploaded_files st)
                             (errors st ++ [FailedToSave target e]))
          end
      end.

(** The loop: it runs to its end, or a turn raises and the variables
    stay as the turns before it left them. *)
Fixpoint upload_loop (bucket_name : string) (files : list FileStorage)
    (st : upload_state) : exn * upload_state + upload_state :=
  match files with
  | [] => inr st
  | file :: rest =>
      match upload_one bucket_name st file with
      | inl e => inl (e, st)
      | inr st' => upload_loop bucket_name rest st'
      end
  end.

(** [parts] is [request.files.getlist('files')], or [None] when the form
    has no ['files'] field. *)
Definition upload_file (bucket_name : string) (parts : option (list FileStorage))
    (w : World) : response * World :=
  match query_first bucket_name (db w) with
  | None => ((Failure (NotFound TheBucket bucket_name), 404), w)
  | Some _ =>
      match parts with
      | None => ((Failure NoFilesProvided, 400), w)
      | Some files =>
          if bool_decide (files = [])
             || forallb (fun f => bool_decide (filename f = "")) files then
            ((Failure NoFilesSelected, 400), w)
          else
            match Path.mkdir_exist_ok (fs w) bucket_name with
            | inl e => ((Failure (Unexpected e), 500), w)
            | inr root =>
                match upload_loop bucket_name files
                        (mk_upload root (reads w) [] []) with
                | inl (e, st) =>
                    ((Failure (Unexpected e), 500),
                     mk_world (db w) (u_root st) (u_reads st))
                | inr st =>
                    let w' := mk_world (db w) (u_root st) (u_reads st) in
                    if negb (bool_decide (uploaded_files st = [])) then
                      ((Success (Uploaded (uploaded_files st)
                          (if bool_decide (errors st = []) then None
                           else Some (errors st))), 200), w')
                    else ((Failure (NoFilesUploaded (errors st)), 400), w')
                end
            end
      end
  end.

(** Where [x] goes in a list sorted by [modified], newest first: before
    the first item that is not newer, as a stable sort does. *)
Fixpoint insert_newest_first (x : FileInfo.t) (l : list FileInfo.t) : list FileInfo.t :=
  match l with
  | [] => [x]
  | y :: l' =>
      if String.ltb (FileInfo.modified x) (FileInfo.modified y)
      then y :: insert_newest_first x l'
      else x :: l
  end.

(** [files_info.sort(key=lambda x: x['modified'], reverse=True)] *)
Definition sort_newest_first (l : list FileInfo.t) : list FileInfo.t :=
  foldr insert_newest_first [] l.

Definition list_files (bucket_name : string) (w : World) : response * World :=
  match query_first bucket_name (db w) with
  | None => ((Failure (NotFound TheBucket bucket_name), 404), w)
  | Some _ =>
      if negb (Path.exists_ (fs w) bucket_name) then
        ((Success (FileList [] 0), 200), w)
      else
        match Path.iterdir (fs w) bucket_name with
        | inl e => ((Failure (Unexpected e), 500), w)
        | inr items =>
            let infos := sort_newest_first (files_info bucket_name items) in
            ((Success (FileList infos (length infos)), 200), w)
        end
  end.

Definition download_file (bucket_name file_name : string) (w : World)
  : response * World :=
  match query_first bucket_name (db w) with
  | None => ((Failure (NotFound TheBucket bucket_name), 404), w)
  | Some _ =>
      match Path.stat (fs w) bucket_name file_name with
      | inl e => ((Failure (Unexpected e), 500), w)
      | inr None => ((Failure (NotFound TheFile file_name), 404), w)
      | inr (Some Subdir) => ((Failure (Unexpected IsADirectoryError), 500), w)
      | inr (Some (File content _)) =>
          match guess_type (Path.str_file bucket_name file_name) with
          | Some mime_type =>
              if String.prefix "image/" mime_type
                 || bool_decide (mime_type = "text/plain")
              then ((Success (Inline content mime_type), 200), w)
              else ((Success (Attachment content file_name), 200), w)
          | None => ((Success (Attachment content file_name), 200), w)
          end
      end
  end.

Definition delete_file (bucket_name file_name : string) (w : World)
  : response * World :=
  match query_first bucket_name (db w) with
  | None => ((Failure (NotFound TheBucket bucket_name), 404), w)
  | Some _ =>
      match Path.file_exists (fs w) bucket_name file_name with
      | inl e => ((Failure (Unexpected e), 500), w)
      | inr false => ((Failure (NotFound TheFile file_name), 404), w)
      | inr true =>
          match Path.unlink (fs w) bucket_name file_name with
          | inl e => ((Failure (Unexpected e), 500), w)
          | inr root =>
              ((Success (FileDeleted file_name), 200),
               mk_world (db w) root (reads w))
          end
      end
  end.

End Service.

(** ** The two library functions, for running the handlers

    [secure_filename] as werkzeug defines it on a POSIX host, for names of
    code points below 256, and [guess_type] of [mimetypes] with the lines
    of its table for the allowed extensions (for any other extension this
    one answers [None]).  The properties below hold for every choice of
    the two functions; these two are the ones the examples run with. *)

Module Werkzeug.

(** The ASCII characters of the NFKD form of one code point. *)
Definition nfkd_ascii (c : ascii) : string :=
  let n := Py.ord c in
  if (n <? 128)%N then String c ""
  else if (n =? 160)%N || (n =? 168)%N || (n =? 175)%N || (n =? 180)%N
          || (n =? 184)%N then " "
  else if (n =? 170)%N || Py.between 224 229 n then "a"
  else if (n =? 178)%N then "2"
  else if (n =? 179)%N then "3"
  else if (n =? 185)%N then "1"
  else if (n =? 186)%N || Py.between 242 246 n then "o"
  else if (n =? 188)%N then "14"
  else if (n =? 189)%N then "12"
  else if (n =? 190)%N then "34"
  else if Py.between 192 197 n then "A"
  else if (n =? 199)%N then "C"
  else if Py.between 200 203 n then "E"
  else if Py.between 204 207 n then "I"
  else if (n =? 209)%N then "N"
  else if Py.between 210 214 n then "O"
  else if Py.between 217 220 n then "U"
  else if (n =? 221)%N then "Y"
  else if (n =? 231)%N then "c"
  else if Py.between 232 235 n then "e"
  else if Py.between 236 239 n then "i"
  else if (n =? 241)%N then "n"
  else if Py.between 249 252 n then "u"
  else if (n =? 253)%N || (n =? 255)%N then "y"
  else "".

(** [unicodedata.normalize("NFKD", s).encode("ascii", "ignore")] *)
Fixpoint to_ascii (s : string) : string :=
  match s with
  | EmptyString => EmptyString
  | String c s' => nfkd_ascii c +:+ to_ascii s'
  end.

(** ["_".join(s.split())]: [started] once a word has begun, [pending]
    when white space has been seen since. *)
Fixpoint join_words (started pending : bool) (s : string) : string :=
  match s with
  | EmptyString => EmptyString
  | String c s' =>
      if Py.isspace_char c then join_words started started s'
      else (if pending then "_" else "") +:+ String c (join_words true false s')
  end.

(** The characters [_filename_ascii_strip_re] keeps. *)
Definition kept (c : ascii) : bool :=
  let n := Py.ord c in
  Py.between 48 57 n || Py.between 65 90 n || Py.between 97 122 n
  || Py.contains_char c "_.-".

Fixpoint keep_only (p : ascii -> bool) (s : string) : string :=
  match s with
  | EmptyString => EmptyString
  | String c s' => if p c then String c (keep_only p s') else keep_only p s'
  end.

Definition secure_filename (filename : string) : string :=
  let filename := to_ascii filename in
  let filename := Py.replace "/" " " filename in
  Py.strip_chars "._" (keep_only kept (join_words false false filename)).

End Werkzeug.

Module Mimetypes.

(** The lines of [types_map] for the allowed extensions. *)
Definition types_map : list (string * string) :=
  [(".txt", "text/plain"); (".pdf", "application/pdf"); (".png", "image/png");
   (".jpg", "image/jpeg"); (".jpeg", "image/jpeg"); (".gif", "image/gif");
   (".bmp", "image/bmp"); (".svg", "image/svg+xml"); (".webp", "image/webp")].

(** The last component of a path. *)
Fixpoint basename (path : string) : string :=
  match path with
  | EmptyString => EmptyString
  | String c rest =>
      if Py.contains_char "/" rest then basename rest
      else if decide (c = "/"%char) then rest else path
  end.

(** [posixpath.splitext(path)[1]]: the extension starts at the last dot of
    the last component, unless only dots come before it. *)
Definition splitext (path : string) : string :=
  match Py.rsplit_dot (basename path) with
  | Some (stem, ext) =>
      if Py.all_chars (fun c => bool_decide (c = "."%char)) stem then ""
      else "." +:+ ext
  | None => ""
  end.

Definition guess_type (path : string) : option string :=
  snd <$> find (fun p => bool_decide (p.1 = Py.lower (splitext path))) types_map.

End Mimetypes.

(** ** Vocabulary of the properties *)

(** A character a bucket name may hold. *)
Definition name_char (c : ascii) : bool :=
  Py.isalnum_char c || bool_decide (c = "-"%char) || bool_decide (c = "_"%char).

(** A dash or an underscore. *)
Definition dash_char (c : ascii) : bool :=
  bool_decide (c = "-"%char) || bool_decide (c = "_"%char).

(** The characters of a string, for quantifying over them. *)
Fixpoint chars (s : string) : list ascii :=
  match s with
  | EmptyString => []
  | String c s' => c :: chars s'
  end.

Definition stripped (name : string) : string :=
  Py.replace "_" "" (Py.replace "-" "" name).

(** The names the validation refuses, in the words of the rules: too
    short, too long, or holding a character that is neither alphanumeric
    nor a dash nor an underscore. *)
Definition invalid_name (name : string) : Prop :=
  Py.len name < 3 \/ 50 < Py.len name
  \/ Exists (fun c => name_char c = false) (chars name).

(** A name as the data model describes it: 3 to 50 characters, each a
    letter, a digit, a dash or an underscore. *)
Definition well_formed_name (name : string) : Prop :=
  3 <= Py.len name <= 50 /\ Forall (fun c => name_char c = true) (chars name).

(** The requests of the API, and the states the service can be in. *)
Inductive request :=
  | ListBuckets
  | CreateBucket (data : option (gmap string json))
  | GetBucket (bucket_name : string)
  | DeleteBucket (bucket_name : string)
  | UploadFile (bucket_name : string) (parts : option (list FileStorage))
  | ListFiles (bucket_name : string)
  | DownloadFile (bucket_name file_name : string)
  | DeleteFile (bucket_name file_name : string).

Section Reachability.

Variable clock : nat -> datetime.
Variable secure_filename : string -> string.
Variable guess_type : string -> option string.

Definition handle (r : request) (w : World) : response * World :=
  match r with
  | ListBuckets => list_buckets w
  | CreateBucket data => create_bucket clock data w
  | GetBucket b => get_bucket guess_type b w
  | DeleteBucket b => delete_bucket b w
  | UploadFile b parts => upload_file clock secure_filename guess_type b parts w
  | ListFiles b => list_files guess_type b w
  | DownloadFile b f => download_file guess_type b f w
  | DeleteFile b f => delete_file b f w
  end.

(** The service starts with an empty table over whatever the storage
    root holds; it then answers requests, and the tree under the root
    may also be changed from outside. *)
Inductive reachable : World -> Prop :=
  | reachable_start (root : gmap string node) :
      reachable (mk_world [] root 0)
  | reachable_request (w : World) (r : request) :
      reachable w -> reachable (handle r w).2
  | reachable_outside (w : World) (root : gmap string node) :
      reachable w -> reachable (mk_world (db w) root (reads w)).

(** A sequence of requests, answered in order. *)
Fixpoint run (rs : list request) (w : World) : list response * World :=
  match rs with
  | [] => ([], w)
  | r :: rest =>
      let '(resp, w1) := handle r w in
      let '(resps, w2) := run rest w1 in
      (resp :: resps, w2)
  end.

End Reachability.

(** The file system takes the name [f] in the directory of the bucket [b]:
    the name has at most [NAME_MAX] bytes and the path fewer than
    [PATH_MAX]. *)
Definition fits (b f : string) : bool :=
  negb (Path.path_too_long b f) && negb (Path.name_too_long f).

(** A file name that stays in the directory it is joined to: it is made
    of ASCII letters, digits, underscores, dashes and dots, it is not
    empty and it does not begin with a dot.  Such a name has no slash and
    is neither "." nor "..". *)
Definition plain_name (f : string) : Prop :=
  Py.all_chars Werkzeug.kept f = true
  /\ match f with
     | EmptyString => False
     | String c _ => c <> "."%char
     end.

(** The answer to an upload request names [target] as a name a part was
    written under, in the list of stored files, or was to be written
    under, in a "Failed to save" error. *)
Definition written_under (resp : response) (target : string) : Prop :=
  (exists infos errs info,
      resp = (Success (Uploaded infos errs), 200)
      /\ info ∈ infos /\ FileInfo.name info = target)
  \/ (exists infos errs e,
        resp = (Success (Uploaded infos (Some errs)), 200)
        /\ FailedToSave target e ∈ errs)
  \/ (exists errs e,
        resp = (Failure (NoFilesUploaded errs), 400)
        /\ FailedToSave target e ∈ errs).

(** What became of one uploaded part. *)
Inductive outcome :=
  | Skipped
  | Rejected (e : file_error)
  | Stored (info : FileInfo.t).

Definition stored_of (os : list outcome) : list FileInfo.t :=
  omap (fun o => match o with Stored info => Some info | _ => None end) os.

Definition errors_of (os : list outcome) : list file_error :=
  omap (fun o => match o with Rejected e => Some e | _ => None end) os.


Section Outcomes.

Variable secure_filename : string -> string.
Variable guess_type : string -> option string.

(** A part gets as far as the write when its name is not empty, its
    extension is allowed and its sanitized name is not empty. *)
Definition writable (file : FileStorage) : Prop :=
  filename file <> "" /\ allowed_file (filename file) = true
  /\ secure_filename (filename file) <> "".

(** The name a part is written under: its sanitized name, or that name
    with a timestamp. *)
Definition target_of (file : FileStorage) (target : string) : Prop :=
  target = secure_filename (filename file)
  \/ exists t : datetime,
       target = collision_name (secure_filename (filename file)) (strftime_suffix t).

(** The outcome [o] is a possible one for the part [file] of a request
    to bucket [b]: skipped for its empty name, rejected for its
    extension or for its empty sanitized name, failed at the write, or
    stored and described by its derived metadata. *)
Definition explains (b : string) (file : FileStorage) (o : outcome) : Prop :=
  match o with
  | Skipped => filename file = ""
  | Rejected (TypeNotAllowed f) =>
      f = filename file /\ f <> "" /\ allowed_file f = false
  | Rejected (InvalidFilename f) =>
      f = filename file /\ f <> "" /\ allowed_file f = true
      /\ secure_filename f = ""
  | Rejected (FailedToSave target e) =>
      writable file /\ target_of file target
  | Stored info =>
      writable file
      /\ exists (target : string) (mtime : datetime),
           target_of file target
           /\ info = get_file_info guess_type b target (stream file) mtime
  end.

End Outcomes.


(** The variables of the upload loop when it stops, at its end or where a
    turn raised. *)
Definition loop_state (r : exn * upload_state + upload_state) : upload_state :=
  match r with
  | inl (_, st) => st
  | inr st => st
  end.



(** The table as the service keeps it: no two rows with one name, no two
    rows with one key, and every name a valid one. *)
Definition well_formed_table (rows : list Bucket.t) : Prop :=
  NoDup (Bucket.name <$> rows) /\ NoDup (Bucket.id <$> rows)
  /\ Forall (fun r => (is_valid_bucket_name (Bucket.name r)).1 = true) rows.

(** [x] was modified no earlier than [y], as the sort of [list_files]
    compares the two: by the text of their [modified] fields. *)
Definition not_older (x y : FileInfo.t) : Prop :=
  String.ltb (FileInfo.modified x) (FileInfo.modified y) = false.

(** A clock stopped at midnight, 1 January 2026, and a few small states
    for running the handlers: no bucket at all; the bucket "docs" holding
    the file a.txt; "docs" holding only a subdirectory; "docs" without
    its directory; "docs" with a regular file in the place of its
    directory; and two states the service gets to by itself from the
    empty one: "docs" just created, and "docs" after the upload of a file
    whose name has 250 bytes. *)
Definition midnight : datetime := mk_datetime 2026 1 1 0 0 0.
Definition stopped_clock (k : nat) : datetime := midnight.
Definition docs_row : Bucket.t := Bucket.mk 1 "docs" midnight.
Definition empty_world : World := mk_world [] ∅ 0.
Definition docs_entries : gmap string entry := {["a.txt" := File "old" midnight]}.
Definition docs_world : World :=
  mk_world [docs_row] {["docs" := Directory docs_entries]} 0.
Definition nested_world : World :=
  mk_world [docs_row] {["docs" := Directory {["old" := Subdir]}]} 0.
Definition bare_world : World := mk_world [docs_row] ∅ 0.
Definition shadowed_world : World :=
  mk_world [docs_row] {["docs" := RegularFile]} 0.

(** File names of a chosen length: [n] letters and the extension .txt. *)
Fixpoint letters (n : nat) : string :=
  match n with
  | O => ""
  | S n' => String "a" (letters n')
  end.

Definition long_name (n : nat) : string := letters n +:+ ".txt".

Definition fresh_docs_world : World :=
  (create_bucket stopped_clock (Some {["name" := JStr "docs"]}) empty_world).2.
Definition crowded_world : World :=
  (upload_file stopped_clock Werkzeug.secure_filename Mimetypes.guess_type
     "docs" (Some [mk_file (long_name 246) "old"]) fresh_docs_world).2.
(** ** Properties of the string helpers *)


Lemma all_chars_Forall p s :
  Py.all_chars p s = true <-> Forall (fun c => p c = true) (chars s).
Proof.
  induction s as [|c s IH]; simpl.
  - split; [constructor | done].
  - rewrite andb_true_iff, IH, Forall_cons. done.
Qed.

Lemma isalnum_spec s :
  Py.isalnum s = true <-> s <> "" /\ Py.all_chars Py.isalnum_char s = true.
Proof.
  destruct s as [|c s]; simpl.
  - split; [done | by intros [? _]].
  - split; [by split | by intros [_ ?]].
Qed.

Lemma dash_not_alnum c : dash_char c = true -> Py.isalnum_char c = false.
Proof.
  unfold dash_char. rewrite orb_true_iff, !bool_decide_eq_true.
  by intros [-> | ->].
Qed.


(** What is left of a name once its dashes and underscores are removed:
    the other characters, in order. *)
Lemma stripped_cons c s :
  stripped (String c s) = if dash_char c then stripped s else String c (stripped s).
Proof.
  unfold stripped, dash_char. simpl.
  destruct (decide (c = "-"%char)) as [->|Hd]; simpl; [done|].
  rewrite (bool_decide_eq_false_2 _ Hd). simpl.
  destruct (decide (c = "_"%char)) as [->|Hu]; simpl; [done|].
  by rewrite (bool_decide_eq_false_2 _ Hu).
Qed.

Lemma stripped_all_alnum s :
  Py.all_chars Py.isalnum_char (stripped s) = Py.all_chars name_char s.
Proof.
  induction s as [|c s IH]; [done|].
  rewrite stripped_cons. cbn [Py.all_chars]. unfold name_char at 1.
  destruct (dash_char c) eqn:Hd.
  - rewrite IH. rewrite (dash_not_alnum _ Hd). unfold dash_char in Hd.
    rewrite <- orb_assoc, Hd. done.
  - cbn [Py.all_chars]. rewrite IH. unfold dash_char in Hd.
    rewrite <- orb_assoc, Hd, orb_false_r. done.
Qed.

Lemma stripped_empty s :
  stripped s = "" <-> Py.all_chars dash_char s = true.
Proof.
  induction s as [|c s IH]; [done|].
  rewrite stripped_cons. cbn [Py.all_chars].
  destruct (dash_char c); simpl; [done|]. split; discriminate.
Qed.

(** The third rule of [is_valid_bucket_name] holds exactly of the names
    made of alphanumeric characters, dashes and underscores that have at
    least one alphanumeric character. *)
Lemma stripped_isalnum s :
  Py.isalnum (stripped s) = true <->
  Py.all_chars name_char s = true /\ Py.all_chars dash_char s = false.
Proof.
  rewrite isalnum_spec, stripped_all_alnum, stripped_empty.
  destruct (Py.all_chars dash_char s); split; intros [? ?]; split; congruence.
Qed.

Lemma is_valid_bucket_name_true name :
  (is_valid_bucket_name name).1 = true <->
  3 <= Py.len name <= 50 /\ Py.all_chars name_char name = true
  /\ Py.all_chars dash_char name = false.
Proof.
  unfold is_valid_bucket_name. fold (stripped name).
  rewrite <- stripped_isalnum.
  destruct (bool_decide (name = "")) eqn:He; simpl.
  - apply bool_decide_eq_true in He as ->. split; [done|]. unfold Py.len. simpl. lia.
  - destruct (Z.ltb_spec (Py.len name) 3); simpl; [split; [done|lia]|].
    destruct (Z.ltb_spec 50 (Py.len name)); simpl; [split; [done|lia]|].
    destruct (Py.isalnum (stripped name)); simpl; split; try done.
    by intros [_ ?].
Qed.

(** ** Name validation *)

(** C6 (as amended): a name of 3 to 50 characters made only of dashes and
    underscores is rejected by [is_valid_bucket_name]: once the dashes and
    underscores are removed nothing is left, and the empty string is not
    alphanumeric. *)
Theorem dash_only_name_rejected (name : string) :
  3 <= Py.len name <= 50 ->
  Py.all_chars dash_char name = true ->
  is_valid_bucket_name name
  = (false, "Only letters, numbers, dash and underscore allowed").
Proof.
  intros Hlen Hdash. unfold is_valid_bucket_name. fold (stripped name).
  assert (name <> "") as Hne by (intros ->; unfold Py.len in Hlen; simpl in Hlen; lia).
  rewrite (bool_decide_eq_false_2 _ Hne). simpl.
  destruct (Z.ltb_spec (Py.len name) 3); [lia|].
  destruct (Z.ltb_spec 50 (Py.len name)); [lia|]. simpl.
  apply stripped_empty in Hdash. by rewrite Hdash.
Qed.

Lemma dash_only_name_rejected_witness :
  3 <= Py.len "-_-" <= 50 /\ Py.all_chars dash_char "-_-" = true
  /\ is_valid_bucket_name "-_-"
     = (false, "Only letters, numbers, dash and underscore allowed").
Proof.
  split; [by vm_compute|]. split; [reflexivity|].
  apply (dash_only_name_rejected "-_-"); [by vm_compute | reflexivity].
Defined.

(** C6 (as stated) fails: the three-dash name has 3 characters, all of
    them dashes, and validation does not accept it. *)
Lemma dash_only_name_not_accepted :
  Py.len "---" = 3 /\ Py.all_chars dash_char "---" = true
  /\ (is_valid_bucket_name "---").1 = false.
Proof. by vm_compute. Qed.


Lemma invalid_name_refused name :
  invalid_name name -> (is_valid_bucket_name name).1 = false.
Proof.
  intros Hinv. destruct ((is_valid_bucket_name name).1) eqn:Hv; [|done].
  apply is_valid_bucket_name_true in Hv as (Hlen & Hall & _).
  destruct Hinv as [?|[?|Hex]]; [lia | lia |].
  apply all_chars_Forall in Hall. apply Exists_exists in Hex as (c & Hc & Hbad).
  rewrite Forall_forall in Hall. specialize (Hall c Hc). congruence.
Qed.

(** ** Bucket operations *)

Section BucketProperties.

Variable clock : nat -> datetime.

(** C2: a create-bucket request whose name, trimmed and lowercased, is
    too short, too long or holds a character other than a letter, a
    digit, a dash or an underscore is answered with [Invalid] and status
    400, and leaves the table and the storage tree as they were. *)
Theorem create_bucket_invalid (data : gmap string json) (raw : string) (w : World) :
  data !! "name" = Some (JStr raw) ->
  invalid_name (Py.lower (Py.strip raw)) ->
  exists message,
    create_bucket clock (Some data) w = ((Failure (Invalid message), 400), w).
Proof.
  intros Hname Hinv. apply invalid_name_refused in Hinv.
  unfold create_bucket. simpl. rewrite Hname.
  destruct (is_valid_bucket_name (Py.lower (Py.strip raw))) as [v message].
  simpl in Hinv. subst v. simpl. by exists message.
Qed.

(** C1: when the bucket has a row and its directory holds at least one
    file, delete-bucket answers [NonEmpty] with status 400 and the state
    of the service (row, directory and files) is unchanged. *)
Theorem delete_bucket_non_empty (bucket_name : string) (w : World)
    (bucket : Bucket.t) (entries : gmap string entry)
    (f content : string) (mtime : datetime) :
  query_first bucket_name (db w) = Some bucket ->
  fs w !! bucket_name = Some (Directory entries) ->
  entries !! f = Some (File content mtime) ->
  exists n : nat,
    (0 < n)%nat
    /\ delete_bucket bucket_name w = ((Failure (NonEmpty n), 400), w).
Proof.
  intros Hrow Hdir Hfile. unfold delete_bucket, Path.exists_, Path.iterdir.
  rewrite Hrow, Hdir. rewrite bool_decide_eq_true_2 by eauto.
  set (files := List.filter Path.is_file (map_to_list entries)).
  assert (In (f, File content mtime) files) as Hin.
  { apply filter_In. split; [|done].
    apply list_elem_of_In, elem_of_map_to_list. done. }
  destruct files as [|x files'] eqn:Hfiles; [done|].
  rewrite bool_decide_eq_false_2 by done. simpl.
  exists (S (length files')). split; [lia | done].
Qed.

(** C9: when the bucket's directory holds no file but at least one
    subdirectory, the emptiness check of delete-bucket passes, removing
    the directory fails, the answer is [IOError] with status 500, and
    the row is still there: the state is unchanged. *)
Theorem delete_bucket_subdirectory (bucket_name : string) (w : World)
    (bucket : Bucket.t) (entries : gmap string entry) (d : string) :
  query_first bucket_name (db w) = Some bucket ->
  fs w !! bucket_name = Some (Directory entries) ->
  (forall f content mtime, entries !! f <> Some (File content mtime)) ->
  entries !! d = Some Subdir ->
  List.filter Path.is_file (map_to_list entries) = []
  /\ Path.rmdir (fs w) bucket_name = inl OSError_ENOTEMPTY
  /\ delete_bucket bucket_name w
     = ((Failure (IOError DeletingFolder OSError_ENOTEMPTY), 500), w)
  /\ query_first bucket_name (db (delete_bucket bucket_name w).2) = Some bucket.
Proof.
  intros Hrow Hdir Hnofile Hsub.
  assert (List.filter Path.is_file (map_to_list entries) = []) as Hnone.
  { destruct (List.filter Path.is_file (map_to_list entries)) as [|[g e] l] eqn:Hl; [done|].
    assert (In (g, e) (List.filter Path.is_file (map_to_list entries))) as Hin
      by (rewrite Hl; left; done).
    apply filter_In in Hin as [Hin Hfile].
    apply list_elem_of_In, elem_of_map_to_list in Hin.
    destruct e as [c m|]; [|done]. by destruct (Hnofile g c m). }
  assert (Path.rmdir (fs w) bucket_name = inl OSError_ENOTEMPTY) as Hrm.
  { unfold Path.rmdir. rewrite Hdir.
    destruct (decide (entries = ∅)) as [->|]; [|done].
    by rewrite lookup_empty in Hsub. }
  assert (delete_bucket bucket_name w
          = ((Failure (IOError DeletingFolder OSError_ENOTEMPTY), 500), w)) as Hdel.
  { unfold delete_bucket, Path.exists_. rewrite Hrow.
    rewrite bool_decide_eq_true_2 by (rewrite Hdir; eauto).
    unfold Path.iterdir. rewrite Hdir, Hnone. simpl. by rewrite Hrm. }
  rewrite Hdel. done.
Qed.

End BucketProperties.

(** ** Size formatting *)

Lemma round_half_even_near q :
  (- (1 # 2) <= q - inject_Z (Py.round_half_even q) <= 1 # 2)%Q.
Proof.
  unfold Py.round_half_even.
  pose proof (Qfloor_le q) as Hlo. pose proof (Qlt_floor q) as Hhi.
  rewrite inject_Z_plus in Hhi. change (inject_Z 1) with 1%Q in Hhi.
  destruct (Qcompare_spec (q - inject_Z (Qfloor q)) (1 # 2)) as [He|Hl|Hg].
  - destruct (Z.even (Qfloor q));
      [|rewrite inject_Z_plus; change (inject_Z 1) with 1%Q]; lra.
  - lra.
  - rewrite inject_Z_plus; change (inject_Z 1) with 1%Q. lra.
Qed.

(** From the rational bound to the integers: [t] is a nearest integer to
    [10 * n / d]. *)
Lemma near_scaled (n d t : Z) (x : Q) :
  0 < d -> (x * inject_Z d == inject_Z n)%Q ->
  (- (1 # 2) <= x * 10 - inject_Z t <= 1 # 2)%Q ->
  2 * Z.abs (10 * n - t * d) <= d.
Proof.
  intros Hd Hx [Hlo Hhi].
  assert (0 < inject_Z d)%Q as Hdq by (rewrite <- (Zlt_Qlt 0); exact Hd).
  assert (inject_Z (10 * n - t * d) == (x * 10 - inject_Z t) * inject_Z d)%Q as Heq.
  { unfold Z.sub. rewrite inject_Z_plus, inject_Z_opp, !inject_Z_mult, <- Hx.
    change (inject_Z 10) with 10%Q. ring. }
  assert (inject_Z (2 * (10 * n - t * d)) <= inject_Z d)%Q as H1.
  { rewrite inject_Z_mult, Heq. change (inject_Z 2) with 2%Q. nra. }
  assert (inject_Z (- d) <= inject_Z (2 * (10 * n - t * d)))%Q as H2.
  { rewrite inject_Z_mult, inject_Z_opp, Heq. change (inject_Z 2) with 2%Q. nra. }
  rewrite <- Zle_Qle in H1, H2. lia.
Qed.

Lemma pow1024_succ (i : nat) :
  inject_Z (1024 ^ Z.of_nat (S i)) = (1024 * inject_Z (1024 ^ Z.of_nat i))%Q.
Proof.
  rewrite Nat2Z.inj_succ, Z.pow_succ_r by lia. by rewrite inject_Z_mult.
Qed.

(** The loop of [format_file_size] stops at the unit [j] with
    [1024^j <= n < 1024^(j+1)] (no upper bound at the last unit), holding
    [n / 1024^j]; the fuel it is given is enough. *)
Lemma scale_spec (n : Z) (fuel : nat) :
  forall (x : Q) (i : nat),
    (3 <= i + fuel)%nat -> (i <= 3)%nat ->
    (x * inject_Z (1024 ^ Z.of_nat i) == inject_Z n)%Q ->
    (i = 0%nat \/ 1024 ^ Z.of_nat i <= n) ->
    exists (j : nat) (x' : Q),
      scale fuel x i = (x', j) /\ (j <= 3)%nat
      /\ (x' * inject_Z (1024 ^ Z.of_nat j) == inject_Z n)%Q
      /\ (j = 0%nat \/ 1024 ^ Z.of_nat j <= n)
      /\ (j = 3%nat \/ n < 1024 ^ (Z.of_nat j + 1)).
Proof.
  induction fuel as [|fuel IH]; intros x i Hfuel Hi Hx Hlow.
  - exists i, x. simpl. repeat split; try done. left. lia.
  - assert (0 < inject_Z (1024 ^ Z.of_nat i))%Q as Hpos.
    { rewrite <- (Zlt_Qlt 0). apply Z.pow_pos_nonneg; lia. }
    cbn [scale]. change (length size_names - 1)%nat with 3%nat.
    destruct (Qle_bool 1024 x) eqn:Hge; simpl.
    + apply Qle_bool_iff in Hge.
      destruct (Nat.ltb_spec i 3) as [Hlt|Hnlt].
      * apply IH; [lia | lia | |].
        -- rewrite pow1024_succ, <- Hx. field.
        -- right. rewrite Zle_Qle, pow1024_succ, <- Hx. nra.
      * exists i, x. repeat split; try done. left. lia.
    + exists i, x. repeat split; try done. right.
      assert (~ (1024 <= x)%Q) as Hlt by (rewrite <- Qle_bool_iff; congruence).
      apply Qnot_le_lt in Hlt.
      replace (Z.of_nat i + 1) with (Z.of_nat (S i)) by lia.
      rewrite Zlt_Qlt, pow1024_succ, <- Hx. nra.
Qed.

(** C7 (as amended): [format_file_size] picks the unit among B, KB, MB and
    GB by thresholds that are powers of 1024 and prints the scaled size
    rounded to one decimal place; so a file of 5 bytes is shown as
    "5.0 B", and only the size 0 is shown without a decimal, as "0 B". *)
Theorem format_file_size_scaling (n : Z) :
  0 < n < 2 ^ 53 ->
  (exists (i : nat) (t : Z),
      (i <= 3)%nat
      /\ (i = 0%nat \/ 1024 ^ Z.of_nat i <= n)
      /\ (i = 3%nat \/ n < 1024 ^ (Z.of_nat i + 1))
      /\ 2 * Z.abs (10 * n - t * 1024 ^ Z.of_nat i) <= 1024 ^ Z.of_nat i
      /\ format_file_size n
         = (Py.str_of_Z (t / 10) +:+ "." +:+ String (Py.digit t) "")
           +:+ " " +:+ nth i size_names "")
  /\ format_file_size 5 = "5.0 B"
  /\ format_file_size 0 = "0 B".
Proof.
  intros [Hpos _]. split; [|split; reflexivity].
  destruct (scale_spec n (length size_names) (inject_Z n) 0)
    as (i & x & Hscale & Hi & Hx & Hlow & Hhigh); simpl; try lia.
  { change (inject_Z (1024 ^ Z.of_nat 0)) with 1%Q. ring. }
  assert (0 < 1024 ^ Z.of_nat i) as Hd by (apply Z.pow_pos_nonneg; lia).
  assert (0 < inject_Z (1024 ^ Z.of_nat i))%Q as Hdq by (by rewrite <- (Zlt_Qlt 0)).
  assert (0 < inject_Z n)%Q as Hnq by (by rewrite <- (Zlt_Qlt 0)).
  assert (0 <= x)%Q as Hx0 by nra.
  exists i, (Py.round_half_even (Qabs x * 10)). repeat split; try done.
  - apply (near_scaled n _ _ x Hd Hx).
    pose proof (round_half_even_near (Qabs x * 10)) as Hnear.
    pose proof (Qabs_pos x Hx0) as Habs.
    set (t := Py.round_half_even (Qabs x * 10)) in *. lra.
  - unfold format_file_size. rewrite (proj2 (Z.eqb_neq n 0)) by lia.
    rewrite Hscale. unfold Py.format_1f.
    apply Qle_bool_iff in Hx0. rewrite Hx0. done.
Qed.

Lemma format_file_size_scaling_witness :
  0 < 1536 < 2 ^ 53
  /\ format_file_size 1536 = "1.5 KB" /\ format_file_size 5 = "5.0 B".
Proof.
  split; [by vm_compute|].
  split; [reflexivity|].
  exact (proj1 (proj2 (format_file_size_scaling 1536 ltac:(by vm_compute)))).
Defined.

(** C7 (as stated) fails: a file of 5 bytes is not shown as "5 B". *)
Lemma five_bytes_not_5_B :
  format_file_size 5 = "5.0 B" /\ format_file_size 5 <> "5 B".
Proof. split; [reflexivity | discriminate]. Qed.

(** ** Creating a bucket *)

Lemma query_first_Some n rows b :
  query_first n rows = Some b -> b ∈ rows /\ Bucket.name b = n.
Proof.
  unfold query_first. intros H. apply find_some in H as [Hin Hn].
  split; [by apply list_elem_of_In | by apply bool_decide_eq_true in Hn].
Qed.

Lemma query_first_None n rows :
  query_first n rows = None <-> Forall (fun b => Bucket.name b <> n) rows.
Proof.
  unfold query_first. induction rows as [|r rows IH]; simpl.
  - split; [constructor | done].
  - rewrite Forall_cons. case_bool_decide as Hn; [split; [done | by intros [? _]]|].
    rewrite IH. split; [by split | by intros [_ ?]].
Qed.

Lemma query_first_snoc n rows b :
  query_first n rows = None -> Bucket.name b = n ->
  query_first n (rows ++ [b]) = Some b.
Proof.
  unfold query_first. induction rows as [|r rows IH]; simpl; intros Hnone Hn.
  - by rewrite bool_decide_eq_true_2.
  - case_bool_decide; [done | by apply IH].
Qed.

(** In a name of allowed characters, having an alphanumeric character is
    the same as not being made of dashes and underscores only. *)
Lemma not_dash_only name :
  Exists (fun c => Py.isalnum_char c = true) (chars name) ->
  Py.all_chars dash_char name = false.
Proof.
  intros Hex. destruct (Py.all_chars dash_char name) eqn:Hall; [|done].
  apply all_chars_Forall in Hall. apply Exists_exists in Hex as (c & Hc & Halnum).
  rewrite Forall_forall in Hall. apply Hall, dash_not_alnum in Hc. congruence.
Qed.

Section CreateBucket.

Variable clock : nat -> datetime.

Lemma create_bucket_conflict (data : gmap string json) (raw : string) (w : World) :
  data !! "name" = Some (JStr raw) ->
  (is_valid_bucket_name (Py.lower (Py.strip raw))).1 = true ->
  is_Some (query_first (Py.lower (Py.strip raw)) (db w)) ->
  create_bucket clock (Some data) w
  = ((Failure (Conflict (Py.lower (Py.strip raw))), 409), w).
Proof.
  intros Hname Hvalid [b Hb]. unfold create_bucket. simpl. rewrite Hname.
  destruct (is_valid_bucket_name (Py.lower (Py.strip raw))) as [v message].
  simpl in Hvalid. subst v. simpl. by rewrite Hb.
Qed.

Lemma create_bucket_created (data : gmap string json) (raw : string) (w : World) :
  data !! "name" = Some (JStr raw) ->
  (is_valid_bucket_name (Py.lower (Py.strip raw))).1 = true ->
  query_first (Py.lower (Py.strip raw)) (db w) = None ->
  fs w !! Py.lower (Py.strip raw) <> Some RegularFile ->
  let new_bucket :=
    Bucket.mk (next_id (db w)) (Py.lower (Py.strip raw)) (clock (reads w)) in
  exists root,
    Path.mkdir_exist_ok (fs w) (Py.lower (Py.strip raw)) = inr root
    /\ (exists entries, root !! Py.lower (Py.strip raw) = Some (Directory entries))
    /\ create_bucket clock (Some data) w
       = ((Success (Created (Bucket.to_dict new_bucket)), 201),
          mk_world (db w ++ [new_bucket]) root (S (reads w))).
Proof.
  intros Hname Hvalid Hfree Hnode new_bucket.
  unfold create_bucket, create_bucket_folder, session_add. simpl. rewrite Hname.
  destruct (is_valid_bucket_name (Py.lower (Py.strip raw))) as [v message].
  simpl in Hvalid. subst v. simpl. rewrite Hfree.
  unfold Path.mkdir_exist_ok.
  destruct (fs w !! Py.lower (Py.strip raw)) as [[|entries]|] eqn:Hdir; [done| |].
  - exists (fs w). split; [done|]. split; [by eauto|done].
  - eexists. split; [done|]. split; [|done].
    exists ∅. by rewrite lookup_insert_eq.
Qed.

(** C3 (as amended): when the trimmed, lowercased name has 3 to 50
    characters, all of them letters, digits, dashes or underscores and
    at least one of them a letter or a digit, no row has that name, and
    no regular file sits at the bucket's path, create-bucket answers 201
    with the new row, whose name is the trimmed lowercase one; the row is
    added and the directory exists.  From then on, in any state where
    that row exists, a create request whose trimmed lowercased name is
    the stored one is answered with [Conflict], status 409, and changes
    nothing. *)
Theorem create_bucket_once (data : gmap string json) (raw : string) (w : World) :
  let bucket_name := Py.lower (Py.strip raw) in
  data !! "name" = Some (JStr raw) ->
  well_formed_name bucket_name ->
  Exists (fun c => Py.isalnum_char c = true) (chars bucket_name) ->
  query_first bucket_name (db w) = None ->
  fs w !! bucket_name <> Some RegularFile ->
  exists new_bucket : Bucket.t,
    let w' := (create_bucket clock (Some data) w).2 in
    (create_bucket clock (Some data) w).1
    = (Success (Created (Bucket.to_dict new_bucket)), 201)
    /\ Bucket.name new_bucket = bucket_name
    /\ db w' = db w ++ [new_bucket]
    /\ query_first bucket_name (db w') = Some new_bucket
    /\ (exists entries, fs w' !! bucket_name = Some (Directory entries))
    /\ (forall b, b <> bucket_name -> fs w' !! b = fs w !! b)
    /\ forall (clock' : nat -> datetime) (data' : gmap string json)
              (raw' : string) (w2 : World),
         data' !! "name" = Some (JStr raw') ->
         Py.lower (Py.strip raw') = bucket_name ->
         is_Some (query_first bucket_name (db w2)) ->
         create_bucket clock' (Some data') w2
         = ((Failure (Conflict bucket_name), 409), w2).
Proof.
  intros bucket_name Hname [Hlen Hchars] Halnum Hfree Hnode.
  assert ((is_valid_bucket_name bucket_name).1 = true) as Hvalid.
  { apply is_valid_bucket_name_true. split; [done|].
    split; [by apply all_chars_Forall | by apply not_dash_only]. }
  destruct (create_bucket_created data raw w Hname Hvalid Hfree Hnode)
    as (root & Hmk & Hdir & Hcreate).
  eexists. rewrite Hcreate. simpl.
  split; [done|]. split; [done|]. split; [done|].
  split; [by apply query_first_snoc|]. split; [done|]. split.
  - intros b Hb. unfold Path.mkdir_exist_ok in Hmk. fold bucket_name in Hmk.
    destruct (fs w !! bucket_name) as [[|entries]|]; simplify_eq; [done|].
    by rewrite lookup_insert_ne.
  - intros clock' data' raw' w2 Hname' Hsame Hrow.
    unfold create_bucket. simpl. rewrite Hname', Hsame.
    destruct (is_valid_bucket_name bucket_name) as [v message].
    simpl in Hvalid. subst v. simpl. by destruct Hrow as [b ->].
Qed.

End CreateBucket.

Lemma create_bucket_once_witness :
  exists new_bucket : Bucket.t,
    (create_bucket stopped_clock (Some {["name" := JStr "  My-Data "]}) empty_world).1
    = (Success (Created (Bucket.to_dict new_bucket)), 201)
    /\ Bucket.name new_bucket = "my-data".
Proof.
  destruct (create_bucket_once stopped_clock {["name" := JStr "  My-Data "]}
              "  My-Data " empty_world) as (b & H1 & H2 & _).
  - reflexivity.
  - split; [by vm_compute | repeat constructor].
  - apply Exists_cons_hd. reflexivity.
  - reflexivity.
  - by vm_compute.
  - exists b. split; [exact H1 | exact H2].
Defined.

(** C3 (as stated) fails: "---" has three characters, each of them a
    dash, and no bucket exists, yet the create request is refused as
    invalid and nothing is created; and a well-formed name is refused with
    status 500 when a regular file sits at its path. *)
Lemma create_bucket_valid_refused :
  (well_formed_name "---"
   /\ create_bucket stopped_clock (Some {["name" := JStr "---"]}) empty_world
      = ((Failure (Invalid "Only letters, numbers, dash and underscore allowed"), 400),
         empty_world))
  /\ (well_formed_name "docs"
      /\ create_bucket stopped_clock (Some {["name" := JStr "docs"]})
           (mk_world [] (fs shadowed_world) 0)
         = ((Failure (IOError CreatingFolder FileExistsError), 500),
            mk_world [] (fs shadowed_world) 0)).
Proof.
  split; (split; [split; [by vm_compute | repeat constructor] | by vm_compute]).
Qed.

(** ** Uploading files *)

Lemma stat_directory root b d f :
  root !! b = Some (Directory d) ->
  Path.stat root b f
  = if fits b f then inr (d !! f) else inl OSError_ENAMETOOLONG.
Proof.
  unfold Path.stat, fits. intros ->.
  destruct (Path.path_too_long b f); [done|]. by destruct (Path.name_too_long f).
Qed.

Lemma lookup_directory root b d f :
  root !! b = Some (Directory d) ->
  Path.lookup root b f = if fits b f then d !! f else None.
Proof.
  intros Hb. unfold Path.lookup. rewrite (stat_directory _ _ _ _ Hb).
  by destruct (fits b f).
Qed.

(** Only a name the file system takes is found. *)
Lemma lookup_Some root b f e :
  Path.lookup root b f = Some e ->
  exists d, root !! b = Some (Directory d) /\ fits b f = true /\ d !! f = Some e.
Proof.
  unfold Path.lookup, Path.stat, fits.
  destruct (Path.path_too_long b f); [done|].
  destruct (root !! b) as [[|d]|]; [done| |by destruct (Path.name_too_long b)].
  destruct (Path.name_too_long f); [done|]. simpl. eauto.
Qed.

Lemma lookup_same_node root root' b f :
  root' !! b = root !! b -> Path.lookup root' b f = Path.lookup root b f.
Proof. unfold Path.lookup, Path.stat. by intros ->. Qed.

Lemma file_exists_directory root b d f :
  root !! b = Some (Directory d) ->
  Path.file_exists root b f
  = if fits b f then inr (bool_decide (is_Some (d !! f)))
    else inl OSError_ENAMETOOLONG.
Proof.
  intros Hb. unfold Path.file_exists. rewrite (stat_directory _ _ _ _ Hb).
  by destruct (fits b f).
Qed.

Lemma save_directory root b d target content now :
  root !! b = Some (Directory d) ->
  Path.save root b target content now
  = if fits b target then
      match d !! target with
      | Some Subdir => inl IsADirectoryError
      | _ => inr (<[b := Directory (<[target := File content now]> d)]> root)
      end
    else inl OSError_ENAMETOOLONG.
Proof.
  unfold Path.save, fits. intros ->.
  destruct (Path.path_too_long b target); [done|].
  by destruct (Path.name_too_long target).
Qed.

(** A write that succeeds went to a directory, under a name the file
    system takes and that is not a directory. *)
Lemma save_inr root b target content now root' :
  Path.save root b target content now = inr root' ->
  exists d,
    root !! b = Some (Directory d) /\ fits b target = true
    /\ d !! target <> Some Subdir
    /\ root' = <[b := Directory (<[target := File content now]> d)]> root.
Proof.
  unfold Path.save, fits.
  destruct (Path.path_too_long b target); [done|].
  destruct (root !! b) as [[|d]|]; [done| |done].
  destruct (Path.name_too_long target); [done|].
  intros Hsave. exists d. split; [done|]. split; [done|].
  destruct (d !! target) as [[]|]; simplify_eq; done.
Qed.

Lemma save_lookup root b target content now root' :
  Path.save root b target content now = inr root' ->
  (forall f, Path.lookup root' b f
             = if decide (f = target) then Some (File content now)
               else Path.lookup root b f)
  /\ (forall b', b' <> b -> root' !! b' = root !! b').
Proof.
  intros (d & Hb & Hfits & _ & ->)%save_inr. split.
  - intros f.
    rewrite (lookup_directory _ b (<[target := File content now]> d))
      by apply lookup_insert_eq.
    rewrite (lookup_directory _ b d) by done.
    destruct (decide (f = target)) as [->|Hne].
    + by rewrite Hfits, lookup_insert_eq.
    + by rewrite lookup_insert_ne.
  - intros b' Hne. by rewrite lookup_insert_ne.
Qed.

Lemma length_append (s1 s2 : string) :
  String.length (s1 +:+ s2) = (String.length s1 + String.length s2)%nat.
Proof. induction s1 as [|c s1 IH]; simpl; [done | by rewrite IH]. Qed.

Lemma rsplit_dot_None s :
  Py.rsplit_dot s = None <-> Py.contains_char "." s = false.
Proof.
  induction s as [|c s IH]; simpl; [done|].
  destruct (Py.rsplit_dot s) as [[a b]|].
  - split; [done|]. destruct (decide ("."%char = c)); [done|].
    intros H. apply IH in H. done.
  - destruct (decide (c = "."%char)) as [->|Hne]; simpl.
    + split; [done|]. by destruct (decide ("."%char = "."%char)).
    + destruct (decide ("."%char = c)) as [<-|_]; [done|]. by rewrite <- IH.
Qed.

(** [rsplit_dot] cuts at the last dot. *)
Lemma rsplit_dot_append a b :
  Py.contains_char "." b = false ->
  Py.rsplit_dot (a +:+ "." +:+ b) = Some (a, b).
Proof.
  intros Hb. induction a as [|c a IH].
  - apply rsplit_dot_None in Hb.
    change ("" +:+ "." +:+ b) with (String "." b). cbn [Py.rsplit_dot].
    rewrite Hb. by destruct (decide ("."%char = "."%char)).
  - change (String c a +:+ "." +:+ b) with (String c (a +:+ "." +:+ b)).
    cbn [Py.rsplit_dot]. by rewrite IH.
Qed.

Lemma rsplit_dot_Some s :
  forall a b, Py.rsplit_dot s = Some (a, b) ->
              s = a +:+ "." +:+ b /\ Py.contains_char "." b = false.
Proof.
  induction s as [|c s IH]; intros a b; simpl; [done|].
  destruct (Py.rsplit_dot s) as [[a' b']|] eqn:Hs.
  - intros [= <- <-]. destruct (IH a' b' eq_refl) as [-> Hb]. done.
  - destruct (decide (c = "."%char)) as [->|Hne]; [|done].
    intros [= <- <-]. by apply rsplit_dot_None in Hs.
Qed.

Lemma strftime_suffix_length t : String.length (strftime_suffix t) = 15%nat.
Proof. reflexivity. Qed.

(** The name given on a collision is longer than the name it replaces. *)
Lemma collision_name_longer s t :
  (String.length s < String.length (collision_name s (strftime_suffix t)))%nat.
Proof.
  unfold collision_name.
  destruct (Py.rsplit_dot s) as [[a b]|] eqn:Hs; simpl.
  - apply rsplit_dot_Some in Hs as [-> _].
    case_bool_decide; rewrite !length_append, ?strftime_suffix_length; simpl;
      rewrite ?length_append, ?strftime_suffix_length; simpl; subst; simpl; lia.
  - rewrite !length_append, strftime_suffix_length. simpl. lia.
Qed.

Section Upload.

Variable clock : nat -> datetime.
Variable secure_filename : string -> string.
Variable guess_type : string -> option string.

Local Abbreviation upload_one := (upload_one clock secure_filename guess_type).
Local Abbreviation upload_loop := (upload_loop clock secure_filename guess_type).
Local Abbreviation upload_file := (upload_file clock secure_filename guess_type).
Local Abbreviation explains := (explains secure_filename guess_type).

(** A turn of the loop that raises nothing has one outcome; it adds at
    most one entry to one of the two lists, and touches the tree only by
    storing the part under the listed name. *)
Lemma upload_one_trace (b : string) (st st' : upload_state) (file : FileStorage) :
  upload_one b st file = inr st' ->
  exists o : outcome,
    explains b file o
    /\ uploaded_files st' = uploaded_files st ++ stored_of [o]
    /\ errors st' = errors st ++ errors_of [o]
    /\ (forall f, Path.lookup (u_root st') b f = Path.lookup (u_root st) b f
                  \/ exists info, o = Stored info /\ FileInfo.name info = f)
    /\ (forall b', b' <> b -> u_root st' !! b' = u_root st !! b')
    /\ (stored_of [o] = [] -> u_root st' = u_root st).
Proof.
  unfold upload_one.
  case_bool_decide as Hname.
  { intros [= <-]. exists Skipped. simpl. rewrite !app_nil_r. naive_solver. }
  destruct (allowed_file (filename file)) eqn:Hallowed; simpl.
  2: { intros [= <-]. exists (Rejected (TypeNotAllowed (filename file))). simpl.
       rewrite app_nil_r. naive_solver. }
  case_bool_decide as Hsan.
  { intros [= <-]. exists (Rejected (InvalidFilename (filename file))). simpl.
    rewrite app_nil_r. naive_solver. }
  assert (writable secure_filename file) as Hw by done.
  destruct (Path.file_exists (u_root st) b (secure_filename (filename file)))
    as [e|taken]; [done|].
  set (resolved :=
         if taken
         then (collision_name (secure_filename (filename file))
                 (strftime_suffix (clock (u_reads st))), S (u_reads st))
         else (secure_filename (filename file), u_reads st)).
  assert (target_of secure_filename file resolved.1) as Htarget.
  { unfold resolved. destruct taken; [right; eauto | by left]. }
  destruct resolved as [target r]. simpl in Htarget.
  destruct (Path.save (u_root st) b target (stream file) (clock r)) as [e|root] eqn:Hsave;
    intros [= <-].
  - exists (Rejected (FailedToSave target e)). simpl. rewrite app_nil_r. naive_solver.
  - exists (Stored (get_file_info guess_type b target (stream file) (clock r))). simpl.
    apply save_lookup in Hsave as [Hin Hout].
    split; [by eauto 10|]. split; [done|]. split; [by rewrite app_nil_r|].
    split; [|split; [done|done]].
    intros f. rewrite Hin. destruct (decide (f = target)) as [->|]; [right|left]; eauto.
Qed.

(** The loop over the parts of a request, when it runs to its end: the
    outcomes, in order, give the two lists of the response, and every
    path of the bucket whose content changed is the name of a stored
    file that is listed. *)
Lemma upload_loop_trace (b : string) (files : list FileStorage) :
  forall st st' : upload_state,
  upload_loop b files st = inr st' ->
  exists os : list outcome,
    Forall2 (explains b) files os
    /\ uploaded_files st' = uploaded_files st ++ stored_of os
    /\ errors st' = errors st ++ errors_of os
    /\ (forall f, Path.lookup (u_root st') b f = Path.lookup (u_root st) b f
                  \/ exists info, info ∈ stored_of os /\ FileInfo.name info = f)
    /\ (forall b', b' <> b -> u_root st' !! b' = u_root st !! b')
    /\ (stored_of os = [] -> u_root st' = u_root st).
Proof.
  induction files as [|file files IH]; intros st st'; simpl.
  - intros [= <-]. exists []. simpl. rewrite !app_nil_r.
    split; [constructor|]. split; [done|]. split; [done|].
    split; [by left|]. split; done.
  - destruct (upload_one b st file) as [e|st1] eqn:Hone; [done|]. intros Hloop.
    destruct (upload_one_trace b st st1 file Hone)
      as (o & Ho & Hup & Herr & Hin & Hout & Hroot).
    destruct (IH st1 st' Hloop) as (os & Hos & Hup' & Herr' & Hin' & Hout' & Hroot').
    exists (o :: os).
    assert (stored_of (o :: os) = stored_of [o] ++ stored_of os) as Hs
      by (unfold stored_of; simpl; by destruct o).
    assert (errors_of (o :: os) = errors_of [o] ++ errors_of os) as He
      by (unfold errors_of; simpl; by destruct o).
    split; [by constructor|].
    split; [by rewrite Hup', Hup, Hs, app_assoc|].
    split; [by rewrite Herr', Herr, He, app_assoc|].
    split; [|split].
    + intros f. destruct (Hin' f) as [->|(info & Hi & Hn)].
      * destruct (Hin f) as [->|(info & -> & Hn)]; [by left|].
        right. exists info. split; [|done]. rewrite Hs. simpl. by left.
      * right. exists info. split; [|done]. rewrite Hs. apply elem_of_app. by right.
    + intros b' Hne. by rewrite Hout', Hout.
    + rewrite Hs. intros [H1 H2]%app_eq_nil. by rewrite Hroot', Hroot.
Qed.






(** C10: when an upload request to a bucket whose directory is missing
    ends with [NoFilesUploaded], the directory exists afterwards, empty:
    the failed request has changed the tree. *)
Theorem upload_failure_creates_directory (b : string) (files : list FileStorage)
    (w : World) (bucket : Bucket.t) (errs : list file_error) :
  query_first b (db w) = Some bucket ->
  fs w !! b = None ->
  (upload_file b (Some files) w).1 = (Failure (NoFilesUploaded errs), 400) ->
  fs (upload_file b (Some files) w).2 = <[b := Directory ∅]> (fs w)
  /\ fs (upload_file b (Some files) w).2 !! b = Some (Directory ∅)
  /\ db (upload_file b (Some files) w).2 = db w.
Proof.
  intros Hrow Hdir. unfold upload_file, Path.mkdir_exist_ok.
  rewrite Hrow, Hdir.
  destruct (bool_decide (files = [])
            || forallb (fun f => bool_decide (filename f = "")) files); [done|].
  destruct (upload_loop b files (mk_upload (<[b := Directory ∅]> (fs w)) (reads w) [] []))
    as [[e st]|st] eqn:Hloop; [done|].
  destruct (upload_loop_trace b files _ st Hloop) as (os & _ & Hup & _ & _ & _ & Hsame).
  simpl in Hup, Hsame. rewrite Hup.
  destruct (stored_of os); simpl; [|done].
  intros _. rewrite Hsame by done. by rewrite lookup_insert_eq.
Qed.

(** C4 (as amended): when the sanitized name of an upload is the name of
    a file of the bucket, the upload is written under another name, the
    sanitized name with an underscore and the timestamp put before the
    extension (at the end when there is none); the file that was there
    keeps its bytes.  The upload is stored under the new name when the
    file system takes that name and it is not a directory; when the new
    name is too long (more than 255 bytes) or is a directory, the write
    fails, a per-file error is recorded and nothing is stored. *)
Theorem upload_collision_renames (b : string) (st : upload_state)
    (file : FileStorage) (content0 : string) (mtime0 : datetime) :
  let sanitized := secure_filename (filename file) in
  let timestamp := strftime_suffix (clock (u_reads st)) in
  let target := collision_name sanitized timestamp in
  writable secure_filename file ->
  Path.lookup (u_root st) b sanitized = Some (File content0 mtime0) ->
  exists st' : upload_state,
    upload_one b st file = inr st'
    /\ target <> sanitized
    /\ (forall base ext,
          sanitized = base +:+ "." +:+ ext -> ext <> "" ->
          Py.contains_char "." ext = false ->
          target = base +:+ "_" +:+ timestamp +:+ "." +:+ ext)
    /\ (Py.contains_char "." sanitized = false ->
        target = sanitized +:+ "_" +:+ timestamp)
    /\ Path.lookup (u_root st') b sanitized = Some (File content0 mtime0)
    /\ (fits b target = true ->
        Path.lookup (u_root st) b target <> Some Subdir ->
        Path.lookup (u_root st') b target
        = Some (File (stream file) (clock (S (u_reads st))))
        /\ uploaded_files st'
           = uploaded_files st
             ++ [get_file_info guess_type b target (stream file)
                   (clock (S (u_reads st)))]
        /\ errors st' = errors st)
    /\ (fits b target = false ->
        u_root st' = u_root st
        /\ uploaded_files st' = uploaded_files st
        /\ errors st' = errors st ++ [FailedToSave target OSError_ENAMETOOLONG])
    /\ (Path.lookup (u_root st) b target = Some Subdir ->
        u_root st' = u_root st
        /\ uploaded_files st' = uploaded_files st
        /\ errors st' = errors st ++ [FailedToSave target IsADirectoryError]).
Proof.
  intros sanitized timestamp target (Hname & Hallowed & Hsan) Hfile.
  destruct (lookup_Some _ _ _ _ Hfile) as (entries & Hdir & Hfits & Hentry).
  assert (target <> sanitized) as Hne.
  { intros Heq. pose proof (collision_name_longer sanitized (clock (u_reads st))) as Hlen.
    fold timestamp in Hlen. fold target in Hlen. rewrite Heq in Hlen. lia. }
  pose proof (lookup_directory _ _ _ target Hdir) as Htarget.
  set (stored :=
         mk_upload
           (<[b := Directory
                     (<[target := File (stream file) (clock (S (u_reads st)))]>
                        entries)]> (u_root st))
           (S (S (u_reads st)))
           (uploaded_files st
              ++ [get_file_info guess_type b target (stream file)
                    (clock (S (u_reads st)))])
           (errors st)).
  set (failed e :=
         mk_upload (u_root st) (S (u_reads st)) (uploaded_files st)
           (errors st ++ [FailedToSave target e])).
  assert (upload_one b st file
          = inr (if fits b target then
                   match entries !! target with
                   | Some Subdir => failed IsADirectoryError
                   | _ => stored
                   end
                 else failed OSError_ENAMETOOLONG)) as Hstep.
  { unfold upload_one.
    rewrite (bool_decide_eq_false_2 _ Hname), Hallowed. simpl.
    fold sanitized. rewrite (bool_decide_eq_false_2 _ Hsan).
    rewrite (file_exists_directory _ _ _ _ Hdir), Hfits.
    rewrite bool_decide_eq_true_2 by eauto.
    fold timestamp. fold target.
    rewrite (save_directory _ _ entries) by done.
    destruct (fits b target); [|done].
    by destruct (entries !! target) as [[]|]. }
  eexists. split; [exact Hstep|]. split; [done|]. split.
  { intros base ext -> Hext Hdot. unfold target, collision_name.
    rewrite rsplit_dot_append by done. simpl.
    by rewrite (bool_decide_eq_false_2 _ Hext). }
  split.
  { intros Hdot. unfold target, collision_name.
    apply rsplit_dot_None in Hdot. by rewrite Hdot. }
  assert (Path.lookup (u_root stored) b sanitized = Some (File content0 mtime0)) as Hkept.
  { unfold stored. simpl.
    rewrite (lookup_directory _ b
               (<[target := File (stream file) (clock (S (u_reads st)))]> entries))
      by apply lookup_insert_eq.
    rewrite Hfits. by rewrite lookup_insert_ne. }
  split; [|split; [|split]].
  - destruct (fits b target); [|done].
    by destruct (entries !! target) as [[]|].
  - intros Hyes Hnot. rewrite Hyes in Htarget |- *. rewrite Htarget in Hnot.
    assert (match entries !! target with
            | Some Subdir => failed IsADirectoryError
            | _ => stored
            end = stored) as -> by (by destruct (entries !! target) as [[]|]).
    split; [|done]. unfold stored. simpl.
    rewrite (lookup_directory _ b
               (<[target := File (stream file) (clock (S (u_reads st)))]> entries))
      by apply lookup_insert_eq.
    by rewrite Hyes, lookup_insert_eq.
  - by intros ->.
  - intros Hsub. destruct (lookup_Some _ _ _ _ Hsub) as (d & Hd & Hyes & Hentry').
    rewrite Hdir in Hd. injection Hd as <-. by rewrite Hyes, Hentry'.
Qed.

End Upload.

(** ** Stored names are trimmed and lowercase *)

Lemma lower_char_idem c : Py.lower_char (Py.lower_char c) = Py.lower_char c.
Proof. by destruct c as [[] [] [] [] [] [] [] []]. Qed.


Lemma lower_idem s : Py.lower (Py.lower s) = Py.lower s.
Proof. induction s as [|c s IH]; simpl; [done | by rewrite lower_char_idem, IH]. Qed.

















Section Reachable.

Variable clock : nat -> datetime.
Variable secure_filename : string -> string.
Variable guess_type : string -> option string.

Local Abbreviation handle := (handle clock secure_filename guess_type).
Local Abbreviation reachable := (reachable clock secure_filename guess_type).






End Reachable.

(** ** The theorems at work on small states *)

Lemma delete_bucket_non_empty_witness :
  exists n : nat,
    (0 < n)%nat
    /\ delete_bucket "docs" docs_world = ((Failure (NonEmpty n), 400), docs_world).
Proof.
  apply (delete_bucket_non_empty "docs" docs_world docs_row docs_entries
           "a.txt" "old" midnight); reflexivity.
Defined.

Lemma create_bucket_invalid_witness :
  exists message,
    create_bucket stopped_clock (Some {["name" := JStr " My Data "]}) docs_world
    = ((Failure (Invalid message), 400), docs_world).
Proof.
  apply (create_bucket_invalid stopped_clock {["name" := JStr " My Data "]}
           " My Data " docs_world); [reflexivity|].
  right. right. vm_compute. do 2 apply Exists_cons_tl. apply Exists_cons_hd. reflexivity.
Defined.

Lemma delete_bucket_subdirectory_witness :
  delete_bucket "docs" nested_world
  = ((Failure (IOError DeletingFolder OSError_ENOTEMPTY), 500), nested_world).
Proof.
  apply (delete_bucket_subdirectory "docs" nested_world docs_row {["old" := Subdir]} "old").
  - reflexivity.
  - reflexivity.
  - intros f content mtime.
    destruct (decide (f = "old")) as [->|Hne]; [by vm_compute|].
    by rewrite lookup_singleton_ne.
  - reflexivity.
Defined.

Lemma upload_failure_creates_directory_witness :
  fs (upload_file stopped_clock Werkzeug.secure_filename Mimetypes.guess_type
        "docs" (Some [mk_file "a.exe" "MZ"]) bare_world).2 !! "docs"
  = Some (Directory ∅).
Proof.
  apply (upload_failure_creates_directory stopped_clock Werkzeug.secure_filename
           Mimetypes.guess_type "docs" [mk_file "a.exe" "MZ"] bare_world docs_row
           [TypeNotAllowed "a.exe"]); reflexivity.
Defined.

Lemma upload_collision_renames_witness :
  exists st' : upload_state,
    upload_one stopped_clock Werkzeug.secure_filename Mimetypes.guess_type
      "docs" (mk_upload (fs docs_world) 0 [] []) (mk_file "a.txt" "new") = inr st'
    /\ collision_name "a.txt" (strftime_suffix midnight) <> "a.txt"
    /\ Path.lookup (u_root st') "docs" "a.txt" = Some (File "old" midnight).
Proof.
  destruct (upload_collision_renames stopped_clock Werkzeug.secure_filename
              Mimetypes.guess_type "docs" (mk_upload (fs docs_world) 0 [] [])
              (mk_file "a.txt" "new") "old" midnight)
    as (st' & Hone & Hne & _ & _ & Hkept & _).
  - by vm_compute.
  - by vm_compute.
  - exists st'. split; [exact Hone|]. split; [exact Hne | exact Hkept].
Defined.

(** C4 (as stated) fails.  From the empty service, "docs" is created and
    a file whose name has 250 bytes is uploaded with the bytes "old".  A
    second upload of that name finds it taken; the name with the timestamp
    has 266 bytes, the write fails, and the upload is not stored under any
    name: the request ends with a per-file error and the tree is as it
    was. *)
Lemma upload_collision_not_stored :
  Werkzeug.secure_filename (long_name 246) = long_name 246
  /\ Path.lookup (fs crowded_world) "docs" (long_name 246) = Some (File "old" midnight)
  /\ Py.fsencode_len (long_name 246) = 250
  /\ Py.fsencode_len (collision_name (long_name 246) (strftime_suffix midnight)) = 266
  /\ upload_file stopped_clock Werkzeug.secure_filename Mimetypes.guess_type
       "docs" (Some [mk_file (long_name 246) "new"]) crowded_world
     = ((Failure (NoFilesUploaded
           [FailedToSave (collision_name (long_name 246) (strftime_suffix midnight))
              OSError_ENAMETOOLONG]), 400),
        mk_world (db crowded_world) (fs crowded_world) (S (reads crowded_world))).
Proof. by vm_compute. Qed.


(** The same request, run: the text file is stored and listed, the
    executable is reported. *)
Example upload_mixed_request :
  (upload_file stopped_clock Werkzeug.secure_filename Mimetypes.guess_type
     "docs" (Some [mk_file "virus.exe" "MZ"; mk_file "notes.txt" "hello"]) bare_world).1
  = (Success (Uploaded
       [FileInfo.mk "notes.txt" 5 "5.0 B" "2026-01-01 00:00:00" "text/plain" ".txt"]
       (Some [TypeNotAllowed "virus.exe"])), 200).
Proof. reflexivity. Qed.




(** The scenario of the specification, run from the empty service: create
    "my-data", upload notes.txt holding "hello", list, download, delete the
    file, list again, delete the bucket. *)
Example scenario_my_data :
  run stopped_clock Werkzeug.secure_filename Mimetypes.guess_type
    [CreateBucket (Some {["name" := JStr "my-data"]});
     UploadFile "my-data" (Some [mk_file "notes.txt" "hello"]);
     ListFiles "my-data";
     DownloadFile "my-data" "notes.txt";
     DeleteFile "my-data" "notes.txt";
     ListFiles "my-data";
     DeleteBucket "my-data"]
    empty_world
  = (let notes :=
       FileInfo.mk "notes.txt" 5 "5.0 B" "2026-01-01 00:00:00" "text/plain" ".txt" in
     [(Success (Created (mk_bucket_dict 1 "my-data" "2026-01-01 00:00:00")), 201);
      (Success (Uploaded [notes] None), 200);
      (Success (FileList [notes] 1), 200);
      (Success (Inline "hello" "text/plain"), 200);
      (Success (FileDeleted "notes.txt"), 200);
      (Success (FileList [] 0), 200);
      (Success (BucketDeleted "my-data"), 200)],
     mk_world [] ∅ 2).
Proof. by vm_compute. Qed.

(** ** More on names and extensions *)

Lemma has_alnum_of_not_dash_only name :
  Py.all_chars name_char name = true ->
  Py.all_chars dash_char name = false ->
  Exists (fun c => Py.isalnum_char c = true) (chars name).
Proof.
  induction name as [|c name IH]; simpl; [done|].
  intros [Hc Hrest]%andb_true_iff Hdash.
  destruct (Py.isalnum_char c) eqn:Halnum; [by apply Exists_cons_hd|].
  apply Exists_cons_tl, IH; [done|].
  unfold name_char in Hc. rewrite Halnum in Hc. simpl in Hc.
  unfold dash_char in Hdash at 1. rewrite Hc in Hdash. done.
Qed.

(** X1: [is_valid_bucket_name] accepts exactly the names of 3 to 50
    characters that are made of alphanumeric characters, dashes and
    underscores and hold at least one alphanumeric character. *)
Theorem bucket_name_rule (name : string) :
  (is_valid_bucket_name name).1 = true <->
  3 <= Py.len name <= 50
  /\ Forall (fun c => name_char c = true) (chars name)
  /\ Exists (fun c => Py.isalnum_char c = true) (chars name).
Proof.
  rewrite is_valid_bucket_name_true, <- all_chars_Forall. split.
  - intros (Hlen & Hchars & Hdash). split; [done|]. split; [done|].
    by apply has_alnum_of_not_dash_only.
  - intros (Hlen & Hchars & Halnum). split; [done|]. split; [done|].
    by apply not_dash_only.
Qed.

Lemma append_assoc (s1 s2 s3 : string) :
  (s1 +:+ s2) +:+ s3 = s1 +:+ s2 +:+ s3.
Proof.
  induction s1 as [|c s1 IH]; [reflexivity|].
  change (String c ((s1 +:+ s2) +:+ s3) = String c (s1 +:+ s2 +:+ s3)).
  by rewrite IH.
Qed.

Lemma lower_char_dot c : Py.lower_char c = "."%char <-> c = "."%char.
Proof. destruct c as [[] [] [] [] [] [] [] []]; by vm_compute. Qed.

Lemma rsplit_dot_lower s :
  Py.rsplit_dot (Py.lower s)
  = (fun p => (Py.lower p.1, Py.lower p.2)) <$> Py.rsplit_dot s.
Proof.
  induction s as [|c s IH]; [done|].
  cbn [Py.lower Py.rsplit_dot]. rewrite IH.
  destruct (Py.rsplit_dot s) as [[a b]|]; simpl; [done|].
  destruct (decide (c = "."%char)) as [Hc|Hc],
    (decide (Py.lower_char c = "."%char)) as [Hl|Hl]; simpl; try done.
  - destruct Hl. by apply lower_char_dot.
  - destruct Hc. by apply lower_char_dot.
Qed.

(** X2: the extension check does not look at the case of the name:
    [allowed_file] gives the same answer on a name and on its lowercase
    form. *)
Theorem allowed_file_case_insensitive (filename : string) :
  allowed_file (Py.lower filename) = allowed_file filename.
Proof.
  unfold allowed_file. rewrite rsplit_dot_lower.
  destruct (Py.rsplit_dot filename) as [[a b]|]; simpl; [|done].
  by rewrite lower_idem.
Qed.

(** X3: only what follows the last dot counts: a name that ends with a
    dot and a dot-free extension is allowed exactly when that extension,
    lowercased, is one of the allowed ones, whatever comes before. *)
Theorem allowed_file_last_extension (stem ext : string) :
  Py.contains_char "." ext = false ->
  allowed_file (stem +:+ "." +:+ ext)
  = bool_decide (Py.lower ext ∈ ALLOWED_EXTENSIONS).
Proof.
  intros Hext. unfold allowed_file. by rewrite rsplit_dot_append.
Qed.

Lemma allowed_file_last_extension_witness :
  allowed_file "report.txt.exe" = false /\ allowed_file "setup.exe.PNG" = true.
Proof.
  split.
  - exact (allowed_file_last_extension "report.txt" "exe" eq_refl).
  - exact (allowed_file_last_extension "setup.exe" "PNG" eq_refl).
Defined.

Lemma allowed_file_split filename :
  allowed_file filename = true ->
  exists stem ext,
    filename = stem +:+ "." +:+ ext /\ ext <> ""
    /\ Py.contains_char "." ext = false
    /\ Py.rsplit_dot filename = Some (stem, ext).
Proof.
  unfold allowed_file.
  destruct (Py.rsplit_dot filename) as [[stem ext]|] eqn:Hsplit; [|done].
  intros Hin. exists stem, ext.
  destruct (rsplit_dot_Some _ _ _ Hsplit) as [Heq Hdot].
  split; [done|]. split; [|done].
  intros ->. apply bool_decide_eq_true in Hin. vm_compute in Hin.
  repeat (apply elem_of_cons in Hin as [Hin|Hin]; [done|]).
  by apply elem_of_nil in Hin.
Qed.

(** X4: the name given on a collision keeps the extension: when a name
    passes the extension check, so does the name with the timestamp, and
    the two have the same suffix. *)
Theorem collision_name_keeps_extension (filename : string) (t : datetime) :
  allowed_file filename = true ->
  allowed_file (collision_name filename (strftime_suffix t)) = true
  /\ (forall stem ext,
        Py.rsplit_dot filename = Some (stem, ext) ->
        Py.rsplit_dot (collision_name filename (strftime_suffix t))
        = Some (stem +:+ "_" +:+ strftime_suffix t, ext)).
Proof.
  intros Hallowed.
  destruct (allowed_file_split _ Hallowed) as (stem & ext & Heq & Hext & Hdot & Hsplit).
  assert (collision_name filename (strftime_suffix t)
          = (stem +:+ "_" +:+ strftime_suffix t) +:+ "." +:+ ext) as Hname.
  { unfold collision_name. rewrite Hsplit. simpl.
    rewrite (bool_decide_eq_false_2 _ Hext).
    change (String "_" (strftime_suffix t +:+ "." +:+ ext))
      with ("_" +:+ strftime_suffix t +:+ "." +:+ ext).
    by rewrite <- !append_assoc. }
  split.
  - rewrite Hname. unfold allowed_file in *. rewrite rsplit_dot_append by done.
    by rewrite Hsplit in Hallowed.
  - intros stem' ext' Hsplit'. rewrite Hsplit in Hsplit'. injection Hsplit' as <- <-.
    rewrite Hname. by apply rsplit_dot_append.
Qed.

Lemma collision_name_keeps_extension_witness :
  allowed_file (collision_name "photo.JPG" (strftime_suffix midnight)) = true.
Proof.
  apply (collision_name_keeps_extension "photo.JPG" midnight). reflexivity.
Defined.

(** ** The table of buckets *)

Lemma next_id_above rows r : r ∈ rows -> Bucket.id r < next_id rows.
Proof.
  unfold next_id. induction rows as [|x rows IH]; simpl.
  - by intros ?%elem_of_nil.
  - intros [->|Hin]%elem_of_cons; [lia|]. specialize (IH Hin). lia.
Qed.

Lemma session_delete_snoc rows b :
  Bucket.id b = next_id rows -> session_delete b (rows ++ [b]) = rows.
Proof.
  intros Hid. unfold session_delete. rewrite filter_app.
  rewrite (filter_cons_False (fun r : Bucket.t => Bucket.id r ≠ Bucket.id b) b [])
    by (intros H; by apply H).
  rewrite filter_nil, app_nil_r.
  assert (forall l : list Bucket.t,
             (forall r, r ∈ l -> Bucket.id r <> Bucket.id b) ->
             filter (fun r : Bucket.t => Bucket.id r ≠ Bucket.id b) l = l) as Hkeep.
  { induction l as [|x l IH]; intros Hall; [done|].
    rewrite filter_cons_True by (apply Hall; left).
    f_equal. apply IH. intros r Hr. apply Hall. by right. }
  apply Hkeep. intros r Hr. apply next_id_above in Hr. lia.
Qed.

Lemma NoDup_fmap_filter {A B} (f : A -> B) (P : A -> Prop)
    `{forall x, Decision (P x)} (l : list A) :
  NoDup (f <$> l) -> NoDup (f <$> filter P l).
Proof.
  induction l as [|x l IH]; csimpl; [done|].
  rewrite NoDup_cons. intros [Hx Hl]. rewrite filter_cons.
  destruct (decide (P x)); csimpl; [|by apply IH].
  apply NoDup_cons. split; [|by apply IH].
  intros (y & Hy & Hin)%list_elem_of_fmap. apply Hx.
  apply list_elem_of_fmap. exists y. split; [done|].
  by apply list_elem_of_filter in Hin as [_ ?].
Qed.

Lemma NoDup_fmap_eq {A B} (f : A -> B) (l : list A) x y :
  NoDup (f <$> l) -> x ∈ l -> y ∈ l -> f x = f y -> x = y.
Proof.
  induction l as [|z l IH]; csimpl; [by intros _ ?%elem_of_nil|].
  rewrite NoDup_cons. intros [Hz Hl] Hx Hy Heq.
  apply elem_of_cons in Hx as [->|Hx], Hy as [->|Hy]; try done.
  - destruct Hz. rewrite Heq. by apply list_elem_of_fmap_2.
  - destruct Hz. rewrite <- Heq. by apply list_elem_of_fmap_2.
  - by apply IH.
Qed.

Section Table.

Variable clock : nat -> datetime.
Variable secure_filename : string -> string.
Variable guess_type : string -> option string.

Local Abbreviation handle := (handle clock secure_filename guess_type).
Local Abbreviation reachable := (reachable clock secure_filename guess_type).

(** What a request does to the table, in full: nothing, the removal of
    the rows with one key, or one new row with a fresh key and a valid
    name that no row had. *)
Lemma handle_table (r : request) (w : World) :
  db (handle r w).2 = db w
  \/ (exists b, db (handle r w).2 = session_delete b (db w))
  \/ (exists n t,
        (is_valid_bucket_name n).1 = true
        /\ query_first n (db w) = None
        /\ db (handle r w).2 = db w ++ [Bucket.mk (next_id (db w)) n t]).
Proof.
  destruct r as [|data|b|b|b parts|b|b f|b f]; simpl.
  - by left.
  - unfold create_bucket, session_add.
    destruct (data ≫= lookup "name") as [[raw|]|]; simpl; try by left.
    destruct (is_valid_bucket_name _) as [[] ?] eqn:Hvalid; simpl; try by left.
    destruct (query_first _ _) eqn:Hfree; simpl; try by left.
    destruct (create_bucket_folder _ _); simpl; try by left.
    right. right. do 2 eexists. split; [|split; [exact Hfree|done]].
    by rewrite Hvalid.
  - unfold get_bucket. repeat case_match; by left.
  - unfold delete_bucket. repeat case_match; simpl; eauto.
  - unfold upload_file. repeat case_match; by left.
  - unfold list_files. repeat case_match; by left.
  - unfold download_file. repeat case_match; by left.
  - unfold delete_file. repeat case_match; by left.
Qed.

(** X5: in every state the service can reach, no two rows of the table
    have the same name, no two have the same key, and every stored name
    passes [is_valid_bucket_name]. *)
Theorem reachable_table (w : World) :
  reachable w -> well_formed_table (db w).
Proof.
  induction 1 as [root|w r Hw (Hnames & Hids & Hvalid)|w root Hw IH]; simpl;
    [|clear Hw|done].
  { split; [constructor|]. split; constructor. }
  destruct (handle_table r w)
    as [->|[(b & ->)|(n & t & Hn & Hfree & ->)]]; [done| |];
    unfold well_formed_table.
  - unfold session_delete. split; [by apply NoDup_fmap_filter|].
    split; [by apply NoDup_fmap_filter|].
    rewrite Forall_forall in Hvalid. apply Forall_forall.
    intros x [_ Hx]%list_elem_of_filter. by apply Hvalid.
  - rewrite !fmap_app. simpl. split; [|split].
    + apply NoDup_app. split; [done|]. split; [|apply NoDup_singleton].
      intros x (r0 & -> & Hr0)%list_elem_of_fmap Heq%list_elem_of_singleton.
      apply query_first_None in Hfree. rewrite Forall_forall in Hfree.
      by apply (Hfree r0).
    + apply NoDup_app. split; [done|]. split; [|apply NoDup_singleton].
      intros x (r0 & -> & Hr0)%list_elem_of_fmap Heq%list_elem_of_singleton.
      apply next_id_above in Hr0. lia.
    + apply Forall_app. split; [done|]. by constructor.
Qed.

(** X6: the ['success'] field and the HTTP status of every answer
    agree: the answer is a success exactly when the status is 200 or
    201. *)
Theorem success_matches_status (r : request) (w : World) :
  success (handle r w).1.1 = true
  <-> (handle r w).1.2 = 200 \/ (handle r w).1.2 = 201.
Proof.
  destruct r as [|data|b|b|b parts|b|b f|b f]; simpl.
  - naive_solver.
  - unfold create_bucket, session_add.
    repeat case_match; simpl; split; (try done); (intros [|]; done) || auto.
  - unfold get_bucket. repeat case_match; simpl; split; (try done); (intros [|]; done) || auto.
  - unfold delete_bucket. repeat case_match; simpl; split; (try done); (intros [|]; done) || auto.
  - unfold upload_file. repeat case_match; simpl; split; (try done); (intros [|]; done) || auto.
  - unfold list_files. repeat case_match; simpl; split; (try done); (intros [|]; done) || auto.
  - unfold download_file. repeat case_match; simpl; split; (try done); (intros [|]; done) || auto.
  - unfold delete_file. repeat case_match; simpl; split; (try done); (intros [|]; done) || auto.
Qed.

(** X7: listing the buckets, reading one bucket, listing its files and
    downloading a file never change the state, whatever they answer. *)
Theorem read_requests_keep_state (w : World) (b f : string) :
  (list_buckets w).2 = w
  /\ (get_bucket guess_type b w).2 = w
  /\ (list_files guess_type b w).2 = w
  /\ (download_file guess_type b f w).2 = w.
Proof.
  split; [done|]. split; [|split].
  - unfold get_bucket. by repeat case_match.
  - unfold list_files. by repeat case_match.
  - unfold download_file. by repeat case_match.
Qed.

(** X8: a request other than an upload that is answered with status
    400, 404 or 409 leaves the state exactly as it was: such an answer
    is given before any directory or row is made or removed. *)
Theorem refused_request_unchanged (r : request) (w : World) :
  (forall b parts, r <> UploadFile b parts) ->
  (handle r w).1.2 = 400 \/ (handle r w).1.2 = 404 \/ (handle r w).1.2 = 409 ->
  (handle r w).2 = w.
Proof.
  intros Hr. destruct r as [|data|b|b|b parts|b|b f|b f]; simpl.
  - done.
  - unfold create_bucket, session_add.
    destruct (data ≫= lookup "name") as [[raw|]|]; simpl; try done.
    destruct (is_valid_bucket_name _) as [[] ?]; simpl; try done.
    destruct (query_first _ _) eqn:Hfree; simpl; try done.
    destruct (create_bucket_folder _ _); simpl; [done|].
    intros [|[|]]; done.
  - intros _. unfold get_bucket. by repeat case_match.
  - unfold delete_bucket. repeat case_match; simpl; try done.
    all: intros [|[|]]; done.
  - by destruct (Hr b parts).
  - intros _. unfold list_files. by repeat case_match.
  - intros _. unfold download_file. by repeat case_match.
  - unfold delete_file. repeat case_match; simpl; try done.
    all: intros [|[|]]; done.
Qed.

End Table.

(** ** Deleting what was created *)

Lemma query_first_filter_other (rows : list Bucket.t) (b : Bucket.t) (n : string) :
  NoDup (Bucket.id <$> rows) -> b ∈ rows -> Bucket.name b <> n ->
  query_first n (session_delete b rows) = query_first n rows.
Proof.
  intros Hids Hb Hn. unfold query_first, session_delete.
  assert (forall l : list Bucket.t,
             (forall r, r ∈ l -> Bucket.id r = Bucket.id b -> r = b) ->
             find (fun r => bool_decide (Bucket.name r = n))
                  (filter (fun r : Bucket.t => Bucket.id r ≠ Bucket.id b) l)
             = find (fun r => bool_decide (Bucket.name r = n)) l) as Hfind.
  { induction l as [|x l IH]; intros Hsame; [done|].
    rewrite filter_cons. destruct (decide (Bucket.id x ≠ Bucket.id b)) as [Hx|Hx]; simpl.
    - case_bool_decide; [done|]. apply IH. intros r Hr. apply Hsame. by right.
    - assert (x = b) as -> by (apply Hsame; [left | by destruct (decide (Bucket.id x = Bucket.id b))]).
      rewrite (bool_decide_eq_false_2 _ Hn). apply IH. intros r Hr. apply Hsame. by right. }
  apply Hfind. intros r Hr Heq. by apply (NoDup_fmap_eq Bucket.id rows).
Qed.

Lemma query_first_filter_same (rows : list Bucket.t) (b : Bucket.t) :
  NoDup (Bucket.name <$> rows) -> b ∈ rows ->
  query_first (Bucket.name b) (session_delete b rows) = None.
Proof.
  intros Hnames Hb. apply query_first_None, Forall_forall.
  intros r [Hid Hr]%list_elem_of_filter Hname.
  apply Hid. f_equal. by apply (NoDup_fmap_eq Bucket.name rows).
Qed.

Section BucketLifeCycle.

Variable clock : nat -> datetime.
Variable guess_type : string -> option string.

(** X9: when the table is well formed, the bucket has a row and its
    directory is missing or empty, delete-bucket answers 200, removes
    the directory and the row, and leaves every other bucket's row and
    directory as they were; the name is then not found. *)
Theorem delete_bucket_removes (bucket_name : string) (w : World) (bucket : Bucket.t) :
  well_formed_table (db w) ->
  query_first bucket_name (db w) = Some bucket ->
  fs w !! bucket_name = None \/ fs w !! bucket_name = Some (Directory ∅) ->
  let w' := (delete_bucket bucket_name w).2 in
  (delete_bucket bucket_name w).1 = (Success (BucketDeleted bucket_name), 200)
  /\ fs w' = delete bucket_name (fs w)
  /\ query_first bucket_name (db w') = None
  /\ (forall n, n <> bucket_name -> query_first n (db w') = query_first n (db w))
  /\ get_bucket guess_type bucket_name w'
     = ((Failure (NotFound TheBucket bucket_name), 404), w').
Proof.
  intros (Hnames & Hids & _) Hrow Hdir w'.
  destruct (query_first_Some _ _ _ Hrow) as [Hin Hname].
  assert (delete_bucket bucket_name w
          = ((Success (BucketDeleted bucket_name), 200),
             mk_world (session_delete bucket (db w)) (delete bucket_name (fs w))
                      (reads w))) as Hdel.
  { unfold delete_bucket, Path.exists_, Path.iterdir, Path.rmdir. rewrite Hrow.
    destruct Hdir as [Hdir|Hdir]; rewrite Hdir.
    - rewrite bool_decide_eq_false_2 by (by intros [? ?]).
      by rewrite (delete_id _ _ Hdir).
    - rewrite bool_decide_eq_true_2 by eauto.
      rewrite map_to_list_empty. simpl. by destruct (decide (∅ = ∅)). }
  unfold w'. rewrite Hdel. simpl.
  assert (query_first bucket_name (session_delete bucket (db w)) = None) as Hgone
    by (rewrite <- Hname; by apply query_first_filter_same).
  split; [done|]. split; [done|]. split; [done|]. split.
  - intros n Hn. apply query_first_filter_other; [done|done|congruence].
  - unfold get_bucket. simpl. by rewrite Hgone.
Qed.

(** X10: creating a bucket whose name is free and whose directory does
    not exist, and deleting it at once, gives back the table and the
    tree as they were before the two requests. *)
Theorem create_then_delete (data : gmap string json) (raw : string) (w : World) :
  let bucket_name := Py.lower (Py.strip raw) in
  let w1 := (create_bucket clock (Some data) w).2 in
  data !! "name" = Some (JStr raw) ->
  (is_valid_bucket_name bucket_name).1 = true ->
  query_first bucket_name (db w) = None ->
  fs w !! bucket_name = None ->
  (create_bucket clock (Some data) w).1.2 = 201
  /\ delete_bucket bucket_name w1
     = ((Success (BucketDeleted bucket_name), 200),
        mk_world (db w) (fs w) (S (reads w))).
Proof.
  intros bucket_name w1 Hname Hvalid Hfree Hdir.
  subst bucket_name w1.
  destruct (create_bucket_created clock data raw w Hname Hvalid Hfree)
    as (root & Hmk & _ & Hcreate); [by rewrite Hdir|].
  rewrite Hcreate. simpl. split; [done|].
  unfold Path.mkdir_exist_ok in Hmk.
  rewrite Hdir in Hmk. injection Hmk as <-.
  unfold delete_bucket. simpl.
  rewrite (query_first_snoc _ _
             (Bucket.mk (next_id (db w)) (Py.lower (Py.strip raw)) (clock (reads w)))
             Hfree eq_refl).
  unfold Path.exists_, Path.iterdir, Path.rmdir. rewrite lookup_insert_eq.
  rewrite bool_decide_eq_true_2 by eauto.
  rewrite map_to_list_empty. simpl. destruct (decide (∅ = ∅)); [|done].
  rewrite session_delete_snoc by done.
  by rewrite delete_insert_id.
Qed.

(** X11: create-bucket takes over a directory that is already there:
    the request succeeds, the directory keeps its entries, and the
    bucket that was just created shows the files that were in it. *)
Theorem create_bucket_adopts_directory (data : gmap string json) (raw : string)
    (w : World) (entries : gmap string entry) :
  let bucket_name := Py.lower (Py.strip raw) in
  let w1 := (create_bucket clock (Some data) w).2 in
  data !! "name" = Some (JStr raw) ->
  (is_valid_bucket_name bucket_name).1 = true ->
  query_first bucket_name (db w) = None ->
  fs w !! bucket_name = Some (Directory entries) ->
  (create_bucket clock (Some data) w).1.2 = 201
  /\ fs w1 = fs w
  /\ exists info : bucket_info,
       get_bucket guess_type bucket_name w1 = ((Success (BucketDetail info), 200), w1)
       /\ folder_exists info = true
       /\ files info = files_info guess_type bucket_name (map_to_list entries).
Proof.
  intros bucket_name w1 Hname Hvalid Hfree Hdir.
  subst bucket_name w1.
  destruct (create_bucket_created clock data raw w Hname Hvalid Hfree)
    as (root & Hmk & _ & Hcreate); [by rewrite Hdir|].
  rewrite Hcreate. simpl. split; [done|].
  unfold Path.mkdir_exist_ok in Hmk.
  rewrite Hdir in Hmk. injection Hmk as <-. split; [done|].
  unfold get_bucket. simpl.
  rewrite (query_first_snoc _ _
             (Bucket.mk (next_id (db w)) (Py.lower (Py.strip raw)) (clock (reads w)))
             Hfree eq_refl).
  unfold Path.exists_, Path.iterdir. rewrite Hdir.
  rewrite bool_decide_eq_true_2 by eauto. eexists. split; [done|]. done.
Qed.

End BucketLifeCycle.

Lemma delete_bucket_removes_witness :
  (delete_bucket "docs" bare_world).1 = (Success (BucketDeleted "docs"), 200)
  /\ query_first "docs" (db (delete_bucket "docs" bare_world).2) = None.
Proof.
  destruct (delete_bucket_removes Mimetypes.guess_type "docs" bare_world docs_row)
    as (H1 & _ & H3 & _).
  - split; [|split].
    + apply NoDup_singleton.
    + apply NoDup_singleton.
    + constructor; [reflexivity | constructor].
  - reflexivity.
  - left. reflexivity.
  - split; [exact H1 | exact H3].
Defined.

Lemma create_then_delete_witness :
  delete_bucket "photos"
    (create_bucket stopped_clock (Some {["name" := JStr " Photos "]}) docs_world).2
  = ((Success (BucketDeleted "photos"), 200),
     mk_world (db docs_world) (fs docs_world) 1).
Proof.
  apply (create_then_delete stopped_clock {["name" := JStr " Photos "]} " Photos " docs_world);
    reflexivity.
Defined.

Lemma create_bucket_adopts_directory_witness :
  fs (create_bucket stopped_clock (Some {["name" := JStr "docs"]})
        (mk_world [] (fs docs_world) 0)).2
  = fs docs_world.
Proof.
  apply (create_bucket_adopts_directory stopped_clock Mimetypes.guess_type {["name" := JStr "docs"]} "docs"
           (mk_world [] (fs docs_world) 0) docs_entries); reflexivity.
Defined.

(** ** More on uploads *)

Lemma mkdir_lookup root b root' :
  Path.mkdir_exist_ok root b = inr root' ->
  (forall b' f, Path.lookup root' b' f = Path.lookup root b' f)
  /\ (forall b', b' <> b -> root' !! b' = root !! b').
Proof.
  unfold Path.mkdir_exist_ok.
  destruct (root !! b) as [[|d]|] eqn:Hb; intros [= <-]; [done|]. split.
  - intros b' f. destruct (decide (b' = b)) as [->|Hne].
    + unfold Path.lookup, Path.stat. rewrite lookup_insert_eq, Hb, lookup_empty.
      destruct (Path.path_too_long b f); [done|].
      by destruct (Path.name_too_long f), (Path.name_too_long b).
    + apply lookup_same_node. by rewrite lookup_insert_ne.
  - intros b' Hne. by rewrite lookup_insert_ne.
Qed.

Lemma save_lookup_other root b target content now root' :
  Path.save root b target content now = inr root' ->
  forall b' f, (b', f) <> (b, target) ->
               Path.lookup root' b' f = Path.lookup root b' f.
Proof.
  intros Hsave b' f Hne. destruct (save_lookup _ _ _ _ _ _ Hsave) as [Hin Hout].
  destruct (decide (b' = b)) as [->|Hb].
  - rewrite Hin. destruct (decide (f = target)) as [->|]; [done|done].
  - apply lookup_same_node. by apply Hout.
Qed.

Section MoreUpload.

Variable clock : nat -> datetime.
Variable secure_filename : string -> string.
Variable guess_type : string -> option string.

Local Abbreviation upload_one := (upload_one clock secure_filename guess_type).
Local Abbreviation upload_loop := (upload_loop clock secure_filename guess_type).

(** A turn of the loop that raises nothing either leaves the tree and
    the list of stored files alone, or writes the part's bytes to one
    path of the bucket and lists that path. *)
Lemma upload_one_effect (b : string) (st st' : upload_state) (file : FileStorage) :
  upload_one b st file = inr st' ->
  (u_root st' = u_root st /\ uploaded_files st' = uploaded_files st)
  \/ (exists target mtime,
        Path.save (u_root st) b target (stream file) mtime = inr (u_root st')
        /\ uploaded_files st'
           = uploaded_files st
             ++ [get_file_info guess_type b target (stream file) mtime]).
Proof.
  unfold upload_one.
  case_bool_decide; [intros [= <-]; by left|].
  destruct (allowed_file (filename file)); simpl; [|intros [= <-]; by left].
  case_bool_decide; [intros [= <-]; by left|].
  destruct (Path.file_exists (u_root st) b (secure_filename (filename file)))
    as [e|taken]; [done|].
  destruct taken;
    (destruct (Path.save _ _ _ _ _) as [e|root] eqn:Hsave; intros [= <-]; simpl;
     [by left | right; by eauto]).
Qed.

(** Over the whole loop, up to its end or to the turn that raised:
    every path holds what it held, or the bytes of one of the parts; and
    every file listed as stored is a regular file of the bucket with
    the bytes of one of the parts. *)
Lemma upload_loop_files (b : string) (files : list FileStorage) :
  forall st : upload_state,
    let st' := loop_state (upload_loop b files st) in
    (forall b' f,
        Path.lookup (u_root st') b' f = Path.lookup (u_root st) b' f
        \/ (b' = b /\ exists file mtime,
              file ∈ files
              /\ Path.lookup (u_root st') b f = Some (File (stream file) mtime)))
    /\ (forall info,
           info ∈ uploaded_files st' ->
           info ∈ uploaded_files st
           \/ exists file mtime,
                file ∈ files
                /\ Path.lookup (u_root st') b (FileInfo.name info)
                   = Some (File (stream file) mtime)).
Proof.
  induction files as [|file files IH]; intros st; simpl.
  { split; [by left | by left]. }
  destruct (upload_one b st file) as [e|st1] eqn:Hone; simpl.
  { split; [by left | by left]. }
  destruct (IH st1) as [Hpaths Hlisted].
  set (st' := loop_state (upload_loop b files st1)) in *.
  assert (forall b' f,
             Path.lookup (u_root st1) b' f = Path.lookup (u_root st) b' f
             \/ (b' = b /\ exists mtime,
                   Path.lookup (u_root st1) b f
                   = Some (File (stream file) mtime))) as Hstep.
  { intros b' f.
    destruct (upload_one_effect b st st1 file Hone)
      as [[-> _]|(target & mtime & Hsave & _)]; [by left|].
    destruct (decide ((b', f) = (b, target))) as [[= -> ->]|Hne].
    - right. split; [done|]. exists mtime.
      destruct (save_lookup _ _ _ _ _ _ Hsave) as [Hin _].
      rewrite Hin. by destruct (decide (target = target)).
    - left. by apply (save_lookup_other _ _ _ _ _ _ Hsave). }
  split.
  - intros b' f. destruct (Hpaths b' f) as [Hsame|(-> & file' & mtime & Hin & Hl)].
    + destruct (Hstep b' f) as [Hs|(-> & mtime & Hl)]; [left; by rewrite Hsame|].
      right. split; [done|]. exists file, mtime. split; [by left|].
      by rewrite Hsame.
    + right. split; [done|]. exists file', mtime. split; [by right|done].
  - intros info Hinfo.
    destruct (Hlisted info Hinfo) as [Hold|(file' & mtime & Hin & Hl)].
    2: { right. exists file', mtime. split; [by right|done]. }
    destruct (upload_one_effect b st st1 file Hone)
      as [[_ Hup]|(target & mtime & Hsave & Hup)].
    { left. by rewrite <- Hup. }
    rewrite Hup in Hold. apply elem_of_app in Hold as [Hold|Hnew]; [by left|].
    apply list_elem_of_singleton in Hnew as ->. simpl. right.
    destruct (Hpaths b target) as [Hsame|(_ & file' & mtime' & Hin & Hl)].
    + exists file, mtime. split; [by left|]. rewrite Hsame.
      destruct (save_lookup _ _ _ _ _ _ Hsave) as [Hin _].
      rewrite Hin. by destruct (decide (target = target)).
    + exists file', mtime'. split; [by right|done].
Qed.

(** Parts with an empty name have no effect on the loop. *)
Lemma upload_loop_named_only (b : string) (files : list FileStorage) :
  forall st : upload_state,
    upload_loop b files st
    = upload_loop b (filter (fun f => filename f <> "") files) st.
Proof.
  induction files as [|file files IH]; intros st; [done|].
  rewrite filter_cons. destruct (decide (filename file <> "")) as [Hne|He]; simpl.
  - destruct (upload_one b st file); [done | apply IH].
  - unfold upload_one at 1.
    rewrite bool_decide_eq_true_2 by (by destruct (decide (filename file = ""))).
    apply IH.
Qed.

(** The tree and the table after an upload request that got as far as
    the loop. *)
Lemma upload_file_state (b : string) (files : list FileStorage) (w : World)
    (bucket : Bucket.t) (root : gmap string node) :
  query_first b (db w) = Some bucket ->
  bool_decide (files = [])
  || forallb (fun f => bool_decide (filename f = "")) files = false ->
  Path.mkdir_exist_ok (fs w) b = inr root ->
  let st := loop_state (upload_loop b files (mk_upload root (reads w) [] [])) in
  fs (upload_file clock secure_filename guess_type b (Some files) w).2 = u_root st
  /\ db (upload_file clock secure_filename guess_type b (Some files) w).2 = db w.
Proof.
  intros Hrow Hselected Hmk. unfold upload_file.
  rewrite Hrow, Hselected, Hmk.
  destruct (upload_loop b files (mk_upload root (reads w) [] [])) as [[e st]|st];
    simpl; [done|].
  by destruct (negb _).
Qed.

(** X13: an upload request never removes a file of the bucket, whatever
    it is answered: every name in the bucket's directory holds what it
    held, or the bytes of one of the parts of the request. *)
Theorem upload_file_never_removes (b : string) (parts : option (list FileStorage))
    (w : World) (f : string) :
  let w' := (upload_file clock secure_filename guess_type b parts w).2 in
  Path.lookup (fs w') b f = Path.lookup (fs w) b f
  \/ exists files file mtime,
       parts = Some files /\ file ∈ files
       /\ Path.lookup (fs w') b f = Some (File (stream file) mtime).
Proof.
  intros w'.
  destruct (query_first b (db w)) as [bucket|] eqn:Hrow;
    [|left; unfold w', upload_file; by rewrite Hrow].
  destruct parts as [files|]; [|left; unfold w', upload_file; by rewrite Hrow].
  destruct (bool_decide (files = [])
            || forallb (fun f => bool_decide (filename f = "")) files) eqn:Hselected;
    [left; unfold w', upload_file; by rewrite Hrow, Hselected|].
  destruct (Path.mkdir_exist_ok (fs w) b) as [e|root] eqn:Hmk;
    [left; unfold w', upload_file; by rewrite Hrow, Hselected, Hmk|].
  destruct (upload_file_state b files w bucket root Hrow Hselected Hmk) as [Hfs _].
  unfold w'. rewrite Hfs.
  destruct (mkdir_lookup _ _ _ Hmk) as [Hroot _].
  destruct (upload_loop_files b files (mk_upload root (reads w) [] [])) as [Hpaths _].
  simpl in Hpaths.
  destruct (Hpaths b f) as [->|(_ & file & mtime & Hin & Hl)]; [left; apply Hroot|].
  right. exists files, file, mtime. done.
Qed.

(** X14: an upload request that is answered with status 400 or 404
    leaves every path under the storage root with what it held, and the
    table as it was; at most an empty directory has been made for the
    bucket. *)
Theorem upload_refused_keeps_files (b : string) (parts : option (list FileStorage))
    (w : World) :
  let w' := (upload_file clock secure_filename guess_type b parts w).2 in
  (upload_file clock secure_filename guess_type b parts w).1.2 = 400
  \/ (upload_file clock secure_filename guess_type b parts w).1.2 = 404 ->
  db w' = db w
  /\ (forall b' f, Path.lookup (fs w') b' f = Path.lookup (fs w) b' f)
  /\ (fs w' = fs w \/ fs w' = <[b := Directory ∅]> (fs w)).
Proof.
  unfold upload_file.
  destruct (query_first b (db w)); [|by auto].
  destruct parts as [files|]; [|by auto].
  destruct (bool_decide (files = []) || _); [by auto|].
  destruct (Path.mkdir_exist_ok (fs w) b) as [e|root] eqn:Hmk; [by auto|].
  destruct (mkdir_lookup _ _ _ Hmk) as [Hroot _].
  destruct (upload_loop b files (mk_upload root (reads w) [] []))
    as [[e st]|st] eqn:Hloop; simpl.
  { intros [|]; done. }
  destruct (upload_loop_trace clock secure_filename guess_type b files _ st Hloop)
    as (os & _ & Hup & _ & _ & _ & Hsame).
  simpl in Hup, Hsame. rewrite Hup.
  destruct (stored_of os); simpl; [|intros [|]; done]. intros _.
  rewrite Hsame by done. split; [done|]. split; [done|].
  unfold Path.mkdir_exist_ok in Hmk.
  destruct (fs w !! b) as [[|d]|]; simplify_eq; auto.
Qed.

(** X15: parts with an empty name count for nothing: a request with at
    least one named part gets the same answer and leaves the same state
    as the request without its unnamed parts. *)
Theorem upload_ignores_empty_names (b : string) (files : list FileStorage) (w : World) :
  Exists (fun f => filename f <> "") files ->
  upload_file clock secure_filename guess_type b (Some files) w
  = upload_file clock secure_filename guess_type b
      (Some (filter (fun f => filename f <> "") files)) w.
Proof.
  intros Hsome. unfold upload_file.
  destruct (query_first b (db w)); [|done].
  assert (forall l : list FileStorage,
             Exists (fun f => filename f <> "") l ->
             bool_decide (l = [])
             || forallb (fun f => bool_decide (filename f = "")) l = false)
    as Hselected.
  { intros l Hex. apply orb_false_iff. split.
    - apply bool_decide_eq_false_2. intros ->. by apply Exists_nil in Hex.
    - apply not_true_is_false. intros Hall. rewrite forallb_forall in Hall.
      apply Exists_exists in Hex as (f & Hf & Hne).
      apply list_elem_of_In, Hall, bool_decide_eq_true in Hf. done. }
  assert (Exists (fun f => filename f <> "") (filter (fun f => filename f <> "") files))
    as Hsome'.
  { apply Exists_exists in Hsome as (f & Hf & Hne). apply Exists_exists.
    exists f. split; [|done]. by apply list_elem_of_filter. }
  rewrite (Hselected _ Hsome), (Hselected _ Hsome').
  destruct (Path.mkdir_exist_ok (fs w) b); [done|].
  by rewrite <- upload_loop_named_only.
Qed.

(** X16: after a successful upload, every file the answer lists is a
    regular file of the bucket, holding the bytes of one of the parts of
    the request. *)
Theorem uploaded_files_exist (b : string) (files : list FileStorage) (w : World)
    (infos : list FileInfo.t) (errs : option (list file_error)) (info : FileInfo.t) :
  let w' := (upload_file clock secure_filename guess_type b (Some files) w).2 in
  (upload_file clock secure_filename guess_type b (Some files) w).1
  = (Success (Uploaded infos errs), 200) ->
  info ∈ infos ->
  exists file mtime,
    file ∈ files
    /\ Path.lookup (fs w') b (FileInfo.name info) = Some (File (stream file) mtime).
Proof.
  unfold upload_file.
  destruct (query_first b (db w)); [|done].
  destruct (bool_decide (files = []) || _); [done|].
  destruct (Path.mkdir_exist_ok (fs w) b) as [e|root] eqn:Hmk; [done|].
  destruct (upload_loop_files b files (mk_upload root (reads w) [] [])) as [_ Hlisted].
  simpl in Hlisted.
  destruct (upload_loop b files (mk_upload root (reads w) [] [])) as [[e st]|st];
    simpl in *; [done|].
  destruct (negb _); simpl; [|done].
  intros [= <- _] Hinfo.
  destruct (Hlisted info Hinfo) as [Hnil|Hfile]; [|done].
  by apply elem_of_nil in Hnil.
Qed.

(** X17: upload, then download: when a request with one part succeeds,
    downloading the name the answer gives returns exactly the bytes
    that were uploaded, inline or as an attachment. *)
Theorem upload_then_download (b : string) (file : FileStorage) (w : World)
    (infos : list FileInfo.t) (errs : option (list file_error)) (info : FileInfo.t) :
  let w' := (upload_file clock secure_filename guess_type b (Some [file]) w).2 in
  (upload_file clock secure_filename guess_type b (Some [file]) w).1
  = (Success (Uploaded infos errs), 200) ->
  info ∈ infos ->
  exists r : result,
    download_file guess_type b (FileInfo.name info) w' = ((Success r, 200), w')
    /\ (r = Attachment (stream file) (FileInfo.name info)
        \/ exists mime_type, r = Inline (stream file) mime_type).
Proof.
  intros w' Hok Hinfo.
  destruct (uploaded_files_exist b [file] w infos errs info Hok Hinfo)
    as (file' & mtime & Hin & Hfile).
  apply list_elem_of_singleton in Hin as ->. fold w' in Hfile.
  assert (is_Some (query_first b (db w'))) as [row Hrow].
  { revert Hok. unfold w', upload_file.
    destruct (query_first b (db w)) eqn:Hq; [|done].
    destruct (bool_decide ([file] = []) || _); [done|].
    destruct (Path.mkdir_exist_ok (fs w) b); [done|].
    destruct (upload_loop b [file] _) as [[e st]|st]; [done|].
    destruct (negb _); simpl; [|done]. intros _. by rewrite Hq. }
  assert (Path.stat (fs w') b (FileInfo.name info) = inr (Some (File (stream file) mtime)))
    as Hstat.
  { unfold Path.lookup in Hfile.
    destruct (Path.stat (fs w') b (FileInfo.name info)); by simplify_eq. }
  unfold download_file. rewrite Hrow, Hstat.
  destruct (guess_type _) as [mime_type|]; [|by eauto].
  destruct (String.prefix "image/" mime_type || _); by eauto.
Qed.

End MoreUpload.

(** ** Listing, downloading and deleting files *)

Lemma not_older_le x y :
  not_older x y <-> String.le (FileInfo.modified y) (FileInfo.modified x).
Proof.
  unfold not_older, String.le, String.ltb, String.leb.
  rewrite (String.compare_antisym (FileInfo.modified x) (FileInfo.modified y)).
  by destruct (FileInfo.modified y ?= FileInfo.modified x)%string.
Qed.

Lemma not_older_trans x y z : not_older x y -> not_older y z -> not_older x z.
Proof.
  rewrite !not_older_le. intros Hxy Hyz.
  by apply (PreOrder_Transitive (R := String.le)) with (FileInfo.modified y).
Qed.

Lemma not_older_total x y : not_older x y \/ not_older y x.
Proof.
  rewrite !not_older_le.
  destruct (total String.le (FileInfo.modified x) (FileInfo.modified y)); auto.
Qed.

Lemma insert_newest_first_perm x l : insert_newest_first x l ≡ₚ x :: l.
Proof.
  induction l as [|y l IH]; simpl; [done|].
  destruct (String.ltb _ _); [|done].
  rewrite IH. apply Permutation_swap.
Qed.

Lemma insert_newest_first_sorted x l :
  StronglySorted not_older l -> StronglySorted not_older (insert_newest_first x l).
Proof.
  induction l as [|y l IH]; simpl; intros Hsorted.
  - by repeat constructor.
  - apply StronglySorted_inv in Hsorted as [Hl Hy].
    destruct (String.ltb (FileInfo.modified x) (FileInfo.modified y)) eqn:Hlt.
    + constructor; [by apply IH|].
      rewrite insert_newest_first_perm. constructor; [|done].
      destruct (not_older_total y x) as [?|Hxy]; [done|].
      unfold not_older in Hxy. congruence.
    + constructor; [by constructor|]. constructor; [done|].
      eapply Forall_impl; [exact Hy|]. simpl. intros z Hz.
      by apply (not_older_trans x y z).
Qed.

Lemma sort_newest_first_perm l : sort_newest_first l ≡ₚ l.
Proof.
  unfold sort_newest_first. induction l as [|x l IH]; simpl; [done|].
  by rewrite insert_newest_first_perm, IH.
Qed.

Lemma sort_newest_first_sorted l : StronglySorted not_older (sort_newest_first l).
Proof.
  unfold sort_newest_first. induction l as [|x l IH]; simpl; [constructor|].
  by apply insert_newest_first_sorted.
Qed.

Section Files.

Variable clock : nat -> datetime.
Variable secure_filename : string -> string.
Variable guess_type : string -> option string.

Lemma files_info_length b items :
  length (files_info guess_type b items) = length (List.filter Path.is_file items).
Proof.
  induction items as [|[f [content mtime|]] items IH]; simpl; [done| |done].
  by rewrite IH.
Qed.

Lemma files_info_names b items :
  FileInfo.name <$> files_info guess_type b items
  = fst <$> List.filter Path.is_file items.
Proof.
  induction items as [|[f [content mtime|]] items IH]; csimpl; [done| |done].
  by rewrite IH.
Qed.

(** X18: for a bucket with a row and a directory, list-files answers
    200 with one entry for each regular file of the directory and none
    for its subdirectories, ordered from the latest modification to the
    earliest, and a count equal to the number of entries. *)
Theorem list_files_sorted (b : string) (w : World) (bucket : Bucket.t)
    (entries : gmap string entry) :
  query_first b (db w) = Some bucket ->
  fs w !! b = Some (Directory entries) ->
  exists l : list FileInfo.t,
    list_files guess_type b w = ((Success (FileList l (length l)), 200), w)
    /\ l ≡ₚ files_info guess_type b (map_to_list entries)
    /\ FileInfo.name <$> l
       ≡ₚ fst <$> List.filter Path.is_file (map_to_list entries)
    /\ StronglySorted not_older l.
Proof.
  intros Hrow Hdir. unfold list_files, Path.exists_, Path.iterdir.
  rewrite Hrow, Hdir. rewrite bool_decide_eq_true_2 by eauto. simpl.
  eexists. split; [done|]. split; [apply sort_newest_first_perm|].
  split; [|apply sort_newest_first_sorted].
  rewrite <- (files_info_names b). apply fmap_Permutation, sort_newest_first_perm.
Qed.

(** X19: get-bucket and list-files agree: whenever get-bucket answers
    with the detail of a bucket, list-files answers 200 with the same
    files in some order, and their number is the [file_count] of the
    detail. *)
Theorem get_bucket_matches_list_files (b : string) (w : World) (info : bucket_info) :
  (get_bucket guess_type b w).1 = (Success (BucketDetail info), 200) ->
  exists l : list FileInfo.t,
    (list_files guess_type b w).1 = (Success (FileList l (length l)), 200)
    /\ l ≡ₚ files info
    /\ file_count info = Z.of_nat (length l).
Proof.
  unfold get_bucket, list_files.
  destruct (query_first b (db w)); [|done].
  destruct (Path.exists_ (fs w) b); simpl.
  - destruct (Path.iterdir (fs w) b) as [e|items]; [done|]. simpl.
    intros [= <-]. simpl. eexists. split; [done|].
    split; [apply sort_newest_first_perm|].
    by rewrite (Permutation_length (sort_newest_first_perm _)).
  - intros [= <-]. simpl. by exists [].
Qed.

(** X20: deleting a file that is a regular file of a bucket with a row
    is answered with 200 and removes that file only: the other files of
    the bucket, the other buckets and the table are as before, and a
    download of the name is then answered with [NotFound] for the
    file. *)
Theorem delete_file_removes (b f : string) (w : World) (bucket : Bucket.t)
    (content : string) (mtime : datetime) :
  query_first b (db w) = Some bucket ->
  Path.lookup (fs w) b f = Some (File content mtime) ->
  let w' := (delete_file b f w).2 in
  (delete_file b f w).1 = (Success (FileDeleted f), 200)
  /\ db w' = db w
  /\ Path.lookup (fs w') b f = None
  /\ (forall b' f', (b', f') <> (b, f) ->
                    Path.lookup (fs w') b' f' = Path.lookup (fs w) b' f')
  /\ download_file guess_type b f w' = ((Failure (NotFound TheFile f), 404), w').
Proof.
  intros Hrow Hfile w'.
  destruct (lookup_Some _ _ _ _ Hfile) as (d & Hdir & Hfits & Hd).
  assert (delete_file b f w
          = ((Success (FileDeleted f), 200),
             mk_world (db w) (<[b := Directory (delete f d)]> (fs w)) (reads w)))
    as Hdel.
  { unfold delete_file. rewrite Hrow.
    rewrite (file_exists_directory _ _ _ _ Hdir), Hfits.
    rewrite bool_decide_eq_true_2 by eauto.
    unfold Path.unlink. unfold fits in Hfits.
    apply andb_true_iff in Hfits as [Hpath Hlen].
    apply negb_true_iff in Hpath, Hlen. by rewrite Hpath, Hdir, Hlen, Hd. }
  unfold w'. rewrite Hdel. simpl.
  assert (<[b := Directory (delete f d)]> (fs w) !! b = Some (Directory (delete f d)))
    as Hdir' by apply lookup_insert_eq.
  assert (Path.stat (<[b := Directory (delete f d)]> (fs w)) b f = inr None) as Hgone.
  { by rewrite (stat_directory _ _ _ _ Hdir'), Hfits, lookup_delete_eq. }
  split; [done|]. split; [done|]. split; [|split].
  - unfold Path.lookup. by rewrite Hgone.
  - intros b' f' Hne. destruct (decide (b' = b)) as [->|Hb].
    + rewrite (lookup_directory _ _ _ _ Hdir'), (lookup_directory _ _ _ _ Hdir).
      destruct (fits b f'); [|done]. apply lookup_delete_ne. congruence.
    + apply lookup_same_node. by rewrite lookup_insert_ne.
  - unfold download_file. simpl. by rewrite Hrow, Hgone.
Qed.

Local Abbreviation upload_one := (upload_one clock secure_filename guess_type).
Local Abbreviation upload_loop := (upload_loop clock secure_filename guess_type).

(** The turn of the loop for a part whose sanitized name is taken, when
    the write goes through. *)
Lemma upload_one_collision (b : string) (st : upload_state) (file : FileStorage)
    (entries : gmap string entry) :
  let sanitized := secure_filename (filename file) in
  let target := collision_name sanitized (strftime_suffix (clock (u_reads st))) in
  writable secure_filename file ->
  u_root st !! b = Some (Directory entries) ->
  fits b sanitized = true ->
  is_Some (entries !! sanitized) ->
  fits b target = true ->
  entries !! target <> Some Subdir ->
  upload_one b st file
  = inr (mk_upload
           (<[b := Directory (<[target := File (stream file) (clock (S (u_reads st)))]>
                                entries)]> (u_root st))
           (S (S (u_reads st)))
           (uploaded_files st
              ++ [get_file_info guess_type b target (stream file)
                    (clock (S (u_reads st)))])
           (errors st)).
Proof.
  intros sanitized target (Hname & Hallowed & Hsan) Hdir Hfits Htaken Hroom Hfree.
  unfold upload_one.
  rewrite (bool_decide_eq_false_2 _ Hname), Hallowed. simpl.
  fold sanitized. rewrite (bool_decide_eq_false_2 _ Hsan).
  rewrite (file_exists_directory _ _ _ _ Hdir), Hfits.
  rewrite bool_decide_eq_true_2 by done.
  fold target. rewrite (save_directory _ _ entries), Hroom by done.
  by destruct (entries !! target) as [[]|].
Qed.

(** X21: the timestamp does not make the name unique: when two parts of
    one request have the same sanitized name, that name is taken, the
    name with the timestamp is one the file system takes (at most 255
    bytes) and is not a directory, and the clock shows the same second
    at both collisions, both parts are reported as stored under the same
    name and the file holds the bytes of the second one only. *)
Theorem same_second_collision_overwrites (b : string) (st : upload_state)
    (f1 f2 : FileStorage) :
  let sanitized := secure_filename (filename f1) in
  let target := collision_name sanitized (strftime_suffix (clock (u_reads st))) in
  writable secure_filename f1 ->
  writable secure_filename f2 ->
  secure_filename (filename f2) = sanitized ->
  is_Some (Path.lookup (u_root st) b sanitized) ->
  fits b target = true ->
  Path.lookup (u_root st) b target <> Some Subdir ->
  strftime_suffix (clock (S (S (u_reads st)))) = strftime_suffix (clock (u_reads st)) ->
  exists st' : upload_state,
    upload_loop b [f1; f2] st = inr st'
    /\ FileInfo.name <$> uploaded_files st'
       = (FileInfo.name <$> uploaded_files st) ++ [target; target]
    /\ errors st' = errors st
    /\ Path.lookup (u_root st') b target
       = Some (File (stream f2) (clock (S (S (S (u_reads st)))))).
Proof.
  intros sanitized target Hw1 Hw2 Hsame [e Htaken] Hroom Hfree Hclock.
  destruct (lookup_Some _ _ _ _ Htaken) as (entries & Hdir & Hfits & Hentry).
  rewrite (lookup_directory _ _ _ _ Hdir), Hroom in Hfree.
  assert (target <> sanitized) as Hne.
  { intros Heq.
    pose proof (collision_name_longer sanitized (clock (u_reads st))) as Hlen.
    fold target in Hlen. rewrite Heq in Hlen. lia. }
  simpl.
  rewrite (upload_one_collision b st f1 entries Hw1 Hdir) by eauto.
  fold sanitized. fold target.
  set (entries1 := <[target := File (stream f1) (clock (S (u_reads st)))]> entries).
  set (st1 := mk_upload _ _ _ _).
  assert (u_root st1 !! b = Some (Directory entries1)) as Hdir1
    by (unfold st1; simpl; by rewrite lookup_insert_eq).
  assert (collision_name (secure_filename (filename f2))
            (strftime_suffix (clock (u_reads st1))) = target) as Htarget
    by (unfold st1; simpl; by rewrite Hsame, Hclock).
  rewrite (upload_one_collision b st1 f2 entries1 Hw2 Hdir1).
  - eexists. split; [done|]. rewrite Htarget. simpl. split; [|split; [done|]].
    + rewrite !fmap_app, <- app_assoc. done.
    + rewrite (lookup_directory _ b
                 (<[target := File (stream f2) (clock (S (S (S (u_reads st)))))]>
                    entries1)) by apply lookup_insert_eq.
      by rewrite Hroom, lookup_insert_eq.
  - by rewrite Hsame.
  - rewrite Hsame. unfold entries1. rewrite lookup_insert_ne by done. eauto.
  - by rewrite Htarget.
  - rewrite Htarget. unfold entries1. by rewrite lookup_insert_eq.
Qed.

End Files.

(** ** The further properties at work on small states *)

Lemma reachable_table_witness :
  well_formed_table
    (db (handle stopped_clock Werkzeug.secure_filename Mimetypes.guess_type
           (CreateBucket (Some {["name" := JStr "docs"]})) empty_world).2).
Proof.
  apply (reachable_table stopped_clock Werkzeug.secure_filename Mimetypes.guess_type).
  apply reachable_request. apply reachable_start.
Defined.

Lemma refused_request_unchanged_witness :
  (handle stopped_clock Werkzeug.secure_filename Mimetypes.guess_type
     (DeleteBucket "docs") docs_world).2
  = docs_world.
Proof.
  apply (refused_request_unchanged stopped_clock Werkzeug.secure_filename
           Mimetypes.guess_type (DeleteBucket "docs") docs_world).
  - intros b parts. discriminate.
  - left. reflexivity.
Defined.

Lemma upload_refused_keeps_files_witness :
  Path.lookup
    (fs (upload_file stopped_clock Werkzeug.secure_filename Mimetypes.guess_type
           "docs" (Some [mk_file "a.exe" "MZ"]) docs_world).2) "docs" "a.txt"
  = Some (File "old" midnight).
Proof.
  destruct (upload_refused_keeps_files stopped_clock Werkzeug.secure_filename
              Mimetypes.guess_type "docs" (Some [mk_file "a.exe" "MZ"]) docs_world)
    as (_ & Hpaths & _); [left; reflexivity|].
  rewrite (Hpaths "docs" "a.txt"). reflexivity.
Defined.

Lemma upload_ignores_empty_names_witness :
  upload_file stopped_clock Werkzeug.secure_filename Mimetypes.guess_type
    "docs" (Some [mk_file "" ""; mk_file "b.txt" "hello"]) docs_world
  = upload_file stopped_clock Werkzeug.secure_filename Mimetypes.guess_type
      "docs" (Some [mk_file "b.txt" "hello"]) docs_world.
Proof.
  apply (upload_ignores_empty_names stopped_clock Werkzeug.secure_filename
           Mimetypes.guess_type "docs" [mk_file "" ""; mk_file "b.txt" "hello"]
           docs_world).
  apply Exists_cons_tl, Exists_cons_hd. by vm_compute.
Defined.

Lemma uploaded_files_exist_witness :
  exists file mtime,
    file ∈ [mk_file "b.txt" "hello"]
    /\ Path.lookup
         (fs (upload_file stopped_clock Werkzeug.secure_filename Mimetypes.guess_type
                "docs" (Some [mk_file "b.txt" "hello"]) docs_world).2)
         "docs" "b.txt"
       = Some (File (stream file) mtime).
Proof.
  apply (uploaded_files_exist stopped_clock Werkzeug.secure_filename
           Mimetypes.guess_type "docs" [mk_file "b.txt" "hello"] docs_world
           [get_file_info Mimetypes.guess_type "docs" "b.txt" "hello" midnight] None
           (get_file_info Mimetypes.guess_type "docs" "b.txt" "hello" midnight)).
  - reflexivity.
  - by left.
Defined.

Lemma upload_then_download_witness :
  exists r : result,
    download_file Mimetypes.guess_type "docs" "a_20260101_000000.txt"
      (upload_file stopped_clock Werkzeug.secure_filename Mimetypes.guess_type
         "docs" (Some [mk_file "a.txt" "new"]) docs_world).2
    = ((Success r, 200),
       (upload_file stopped_clock Werkzeug.secure_filename Mimetypes.guess_type
          "docs" (Some [mk_file "a.txt" "new"]) docs_world).2)
    /\ (r = Attachment "new" "a_20260101_000000.txt"
        \/ exists mime_type, r = Inline "new" mime_type).
Proof.
  apply (upload_then_download stopped_clock Werkzeug.secure_filename
           Mimetypes.guess_type "docs" (mk_file "a.txt" "new") docs_world
           [get_file_info Mimetypes.guess_type "docs" "a_20260101_000000.txt" "new" midnight]
           None
           (get_file_info Mimetypes.guess_type "docs" "a_20260101_000000.txt" "new" midnight)).
  - reflexivity.
  - by left.
Defined.

Lemma list_files_sorted_witness :
  exists l : list FileInfo.t,
    list_files Mimetypes.guess_type "docs" docs_world
    = ((Success (FileList l (length l)), 200), docs_world)
    /\ StronglySorted not_older l.
Proof.
  destruct (list_files_sorted Mimetypes.guess_type "docs" docs_world docs_row docs_entries)
    as (l & Hl & _ & _ & Hsorted); [reflexivity | reflexivity |].
  exists l. split; [exact Hl | exact Hsorted].
Defined.

Lemma get_bucket_matches_list_files_witness :
  exists l : list FileInfo.t,
    (list_files Mimetypes.guess_type "docs" docs_world).1
    = (Success (FileList l (length l)), 200)
    /\ Z.of_nat (length l) = 1.
Proof.
  destruct (get_bucket_matches_list_files Mimetypes.guess_type "docs" docs_world
              (mk_bucket_info (Bucket.to_dict docs_row) true 1 "3.0 B"
                 "storage/buckets/docs"
                 [get_file_info Mimetypes.guess_type "docs" "a.txt" "old" midnight]))
    as (l & Hl & _ & Hcount); [reflexivity|].
  exists l. split; [exact Hl | by rewrite <- Hcount].
Defined.

Lemma delete_file_removes_witness :
  (delete_file "docs" "a.txt" docs_world).1 = (Success (FileDeleted "a.txt"), 200)
  /\ Path.lookup (fs (delete_file "docs" "a.txt" docs_world).2) "docs" "a.txt" = None.
Proof.
  destruct (delete_file_removes Mimetypes.guess_type "docs" "a.txt" docs_world docs_row
              "old" midnight) as (H1 & _ & H3 & _); [reflexivity | reflexivity |].
  split; [exact H1 | exact H3].
Defined.

Lemma same_second_collision_overwrites_witness :
  exists st' : upload_state,
    upload_loop stopped_clock Werkzeug.secure_filename Mimetypes.guess_type
      "docs" [mk_file "a.txt" "one"; mk_file "a.txt" "two"]
      (mk_upload (fs docs_world) 0 [] []) = inr st'
    /\ Path.lookup (u_root st') "docs" "a_20260101_000000.txt"
       = Some (File "two" midnight).
Proof.
  destruct (same_second_collision_overwrites stopped_clock Werkzeug.secure_filename
              Mimetypes.guess_type "docs" (mk_upload (fs docs_world) 0 [] [])
              (mk_file "a.txt" "one") (mk_file "a.txt" "two"))
    as (st' & Hloop & _ & _ & Hfile).
  - by vm_compute.
  - by vm_compute.
  - reflexivity.
  - eexists. by vm_compute.
  - by vm_compute.
  - by vm_compute.
  - reflexivity.
  - exists st'. split; [exact Hloop | exact Hfile].
Defined.

(** ** Sizes in bytes, missing directories, ties and counts *)

Lemma round_half_even_Z (q : Q) (z : Z) :
  (q == inject_Z z)%Q -> Py.round_half_even q = z.
Proof.
  intros Hq. unfold Py.round_half_even.
  assert (Qfloor q = z) as -> by (rewrite (Qfloor_comp _ _ Hq); apply Qfloor_Z).
  assert ((q - inject_Z z ?= 1 # 2)%Q = Lt) as ->; [|done].
  apply (proj1 (Qlt_alt _ _)). set (y := inject_Z z) in *. lra.
Qed.

(** X22: a size from 1 to 1023 bytes is shown as the number of bytes
    followed by ".0 B": no scaling, and always one decimal. *)
Theorem format_file_size_bytes (n : Z) :
  0 < n < 1024 ->
  format_file_size n = Py.str_of_Z n +:+ ".0 B".
Proof.
  intros [Hpos Hsmall]. unfold format_file_size.
  rewrite (proj2 (Z.eqb_neq n 0)) by lia.
  assert (Qle_bool 1024 (inject_Z n) = false) as Hstop.
  { apply not_true_is_false. intros Hle%Qle_bool_iff.
    change 1024%Q with (inject_Z 1024) in Hle. rewrite <- Zle_Qle in Hle. lia. }
  cbn [scale length size_names]. rewrite Hstop. simpl andb. cbv iota. cbn [nth].
  unfold Py.format_1f.
  assert (0 <= inject_Z n)%Q as Hq by (rewrite <- (Zle_Qle 0); lia).
  rewrite (proj2 (Qle_bool_iff 0 (inject_Z n)) Hq).
  rewrite (round_half_even_Z _ (n * 10)).
  2: { rewrite (Qabs_pos _ Hq), inject_Z_mult. reflexivity. }
  rewrite Z.div_mul by lia.
  unfold Py.digit. rewrite Z_mod_mult.
  change ("" +:+ Py.str_of_Z n +:+ "." +:+ String (ascii_of_N (48 + Z.to_N 0)) "")
    with (Py.str_of_Z n +:+ ".0").
  by rewrite append_assoc.
Qed.

Lemma format_file_size_bytes_witness : format_file_size 1023 = "1023.0 B".
Proof. apply (format_file_size_bytes 1023). by vm_compute. Defined.

Lemma string_ltb_irrefl (k : string) : String.ltb k k = false.
Proof.
  unfold String.ltb. assert ((k ?= k)%string = Eq) as ->; [|done].
  induction k as [|c k IH]; simpl; [done|].
  unfold Ascii.compare. by rewrite N.compare_refl.
Qed.

Lemma insert_newest_first_filter (k : string) x l :
  filter (fun y => FileInfo.modified y = k) (insert_newest_first x l)
  = filter (fun y => FileInfo.modified y = k) (x :: l).
Proof.
  induction l as [|y l IH]; [done|]. simpl.
  destruct (String.ltb (FileInfo.modified x) (FileInfo.modified y)) eqn:Hlt; [|done].
  rewrite (filter_cons _ y), IH, !(filter_cons _ x), !(filter_cons _ y).
  destruct (decide (FileInfo.modified y = k)) as [Hy|Hy],
    (decide (FileInfo.modified x = k)) as [Hx|Hx]; try done.
  rewrite Hx, Hy in Hlt.
  by rewrite string_ltb_irrefl in Hlt.
Qed.

(** X23: the sort of [list_files] is stable: the files with one and the
    same [modified] text come out in the order the directory gave them. *)
Theorem sort_newest_first_stable (k : string) (l : list FileInfo.t) :
  filter (fun y => FileInfo.modified y = k) (sort_newest_first l)
  = filter (fun y => FileInfo.modified y = k) l.
Proof.
  unfold sort_newest_first. induction l as [|x l IH]; [done|]. simpl.
  by rewrite insert_newest_first_filter, !(filter_cons _ x), IH.
Qed.

Lemma fsencode_len_bound s : Py.fsencode_len s <= 2 * Py.len s.
Proof.
  unfold Py.len. induction s as [|c s IH]; simpl; [done|].
  destruct (Py.ord c <? 128)%N; lia.
Qed.

Section MissingDirectory.

Variable clock : nat -> datetime.
Variable secure_filename : string -> string.
Variable guess_type : string -> option string.

(** X24: a bucket that has a row, with a valid name, but no directory
    is not an error for the reading operations: get-bucket reports the
    missing folder with no file and a total of "0 B", list-files gives
    the empty list, and download and delete-file answer [NotFound] for
    the file, unless the path of the file has 4096 bytes or more: then
    the test for the file raises and they answer with status 500.
    Nothing changes. *)
Theorem missing_directory_tolerated (b f : string) (w : World) (bucket : Bucket.t) :
  query_first b (db w) = Some bucket ->
  fs w !! b = None ->
  (is_valid_bucket_name b).1 = true ->
  let answer : response :=
    if Path.path_too_long b f then (Failure (Unexpected OSError_ENAMETOOLONG), 500)
    else (Failure (NotFound TheFile f), 404) in
  get_bucket guess_type b w
  = ((Success (BucketDetail
        (mk_bucket_info (Bucket.to_dict bucket) false 0 "0 B" (Path.str b) [])), 200), w)
  /\ list_files guess_type b w = ((Success (FileList [] 0), 200), w)
  /\ download_file guess_type b f w = (answer, w)
  /\ delete_file b f w = (answer, w).
Proof.
  intros Hrow Hdir Hvalid answer.
  assert (Path.name_too_long b = false) as Hname.
  { apply is_valid_bucket_name_true in Hvalid as [Hlen _].
    unfold Path.name_too_long, Path.NAME_MAX. apply Z.ltb_ge.
    pose proof (fsencode_len_bound b). lia. }
  unfold get_bucket, list_files, download_file, delete_file,
    Path.exists_, Path.file_exists, Path.stat, answer.
  rewrite Hrow, Hdir, Hname.
  rewrite !bool_decide_eq_false_2 by (by intros [? ?]).
  split; [done|]. split; [done|].
  by destruct (Path.path_too_long b f).
Qed.

(** X25: a bucket that was just created is the last one that
    list-buckets shows, after the buckets that were there, and the
    count is one more. *)
Theorem created_bucket_listed_last (data : option (gmap string json)) (w : World)
    (bucket : bucket_dict) :
  (create_bucket clock data w).1 = (Success (Created bucket), 201) ->
  (list_buckets (create_bucket clock data w).2).1
  = (Success (BucketList (map Bucket.to_dict (db w) ++ [bucket])
                (S (length (db w)))), 200).
Proof.
  unfold create_bucket, session_add, list_buckets.
  destruct (data ≫= lookup "name") as [[raw|]|]; simpl; try done.
  destruct (is_valid_bucket_name _) as [[] ?]; simpl; try done.
  destruct (query_first _ _); simpl; try done.
  destruct (create_bucket_folder _ _); simpl; try done.
  intros [= <-]. rewrite map_app, length_app, !length_map. simpl.
  by rewrite Nat.add_1_r.
Qed.

Local Abbreviation explains := (explains secure_filename guess_type).

Lemma outcomes_count (b : string) (files : list FileStorage) (os : list outcome) :
  Forall2 (explains b) files os ->
  (length (stored_of os) + length (errors_of os)
   + length (filter (fun f => filename f = "") files))%nat
  = length files.
Proof.
  induction 1 as [|file o files os Ho _ IH]; [done|].
  rewrite filter_cons.
  set (empty := filter (fun f => filename f = "") files) in *.
  assert (length (stored_of (o :: os))
          = (length (stored_of [o]) + length (stored_of os))%nat) as ->
    by (unfold stored_of; by destruct o).
  assert (length (errors_of (o :: os))
          = (length (errors_of [o]) + length (errors_of os))%nat) as ->
    by (unfold errors_of; by destruct o as [|[]|]).
  destruct (decide (filename file = "")) as [He|Hne].
  - destruct o as [|[g|g|g e]|info]; simpl in Ho.
    + cbn [length]. change (length (stored_of [Skipped])) with 0%nat.
      change (length (errors_of [Skipped])) with 0%nat. lia.
    + by destruct Ho as (-> & ? & _).
    + by destruct Ho as (-> & ? & _).
    + by destruct Ho as ((? & _) & _).
    + by destruct Ho as ((? & _) & _).
  - destruct o as [|[g|g|g e]|info]; simpl in Ho; [done|..].
    + change (length (stored_of [Rejected (TypeNotAllowed g)])) with 0%nat.
      change (length (errors_of [Rejected (TypeNotAllowed g)])) with 1%nat.
      cbn [length]. lia.
    + change (length (stored_of [Rejected (InvalidFilename g)])) with 0%nat.
      change (length (errors_of [Rejected (InvalidFilename g)])) with 1%nat.
      cbn [length]. lia.
    + change (length (stored_of [Rejected (FailedToSave g e)])) with 0%nat.
      change (length (errors_of [Rejected (FailedToSave g e)])) with 1%nat.
      cbn [length]. lia.
    + change (length (stored_of [Stored info])) with 1%nat.
      change (length (errors_of [Stored info])) with 0%nat.
      cbn [length]. lia.
Qed.

(** X26: every part of an upload request is accounted for once: when
    the request is answered with the list of the stored files, or with
    [NoFilesUploaded], the files listed as stored, the per-file errors
    and the parts with an empty name add up to the number of parts. *)
Theorem upload_accounts_for_every_part (b : string) (files : list FileStorage)
    (w : World) (infos : list FileInfo.t) (listed : option (list file_error))
    (errs : list file_error) :
  let resp := (upload_file clock secure_filename guess_type b (Some files) w).1 in
  (resp = (Success (Uploaded infos listed), 200) ->
   (length infos + length (default [] listed)
    + length (filter (fun f => filename f = "") files))%nat
   = length files)
  /\ (resp = (Failure (NoFilesUploaded errs), 400) ->
      (length errs + length (filter (fun f => filename f = "") files))%nat
      = length files).
Proof.
  unfold upload_file.
  destruct (query_first b (db w)); [|done].
  destruct (bool_decide (files = []) || _); [done|].
  destruct (Path.mkdir_exist_ok (fs w) b) as [e|root]; [done|].
  destruct (upload_loop clock secure_filename guess_type b files
              (mk_upload root (reads w) [] [])) as [[e st]|st] eqn:Hloop; [done|].
  destruct (upload_loop_trace clock secure_filename guess_type b files _ st Hloop)
    as (os & Hos & Hup & Herr & _).
  simpl in Hup, Herr. rewrite Hup, Herr.
  pose proof (outcomes_count b files os Hos) as Hcount.
  destruct (stored_of os) as [|info rest] eqn:Hs; simpl.
  - split; [done|]. intros [= <-]. simpl in Hcount. lia.
  - split; [|done]. intros [= <- <-]. simpl in Hcount.
    case_bool_decide as Hnil; simpl; [rewrite Hnil in Hcount; simpl in Hcount; lia | lia].
Qed.

End MissingDirectory.

Lemma missing_directory_tolerated_witness :
  list_files Mimetypes.guess_type "docs" bare_world
  = ((Success (FileList [] 0), 200), bare_world)
  /\ download_file Mimetypes.guess_type "docs" "a.txt" bare_world
     = ((Failure (NotFound TheFile "a.txt"), 404), bare_world).
Proof.
  destruct (missing_directory_tolerated Mimetypes.guess_type "docs" "a.txt" bare_world
              docs_row) as (_ & Hlist & Hget & _); [reflexivity..|].
  split; [exact Hlist | exact Hget].
Defined.

Lemma created_bucket_listed_last_witness :
  (list_buckets
     (create_bucket stopped_clock (Some {["name" := JStr "photos"]}) docs_world).2).1
  = (Success (BucketList
       [Bucket.to_dict docs_row; mk_bucket_dict 2 "photos" "2026-01-01 00:00:00"] 2), 200).
Proof.
  apply (created_bucket_listed_last stopped_clock (Some {["name" := JStr "photos"]})
           docs_world (mk_bucket_dict 2 "photos" "2026-01-01 00:00:00")).
  reflexivity.
Defined.

Lemma upload_accounts_for_every_part_witness :
  (1 + length (default [] (Some [TypeNotAllowed "a.exe"]))
   + length (filter (fun f => filename f = "")
               [mk_file "" ""; mk_file "a.exe" "MZ"; mk_file "b.txt" "hello"]))%nat
  = 3%nat.
Proof.
  destruct (upload_accounts_for_every_part stopped_clock Werkzeug.secure_filename
              Mimetypes.guess_type "docs"
              [mk_file "" ""; mk_file "a.exe" "MZ"; mk_file "b.txt" "hello"]
              docs_world
              [get_file_info Mimetypes.guess_type "docs" "b.txt" "hello" midnight]
              (Some [TypeNotAllowed "a.exe"]) []) as [Hcount _].
  apply Hcount. reflexivity.
Defined.

(** ** The names uploads are written under *)

Lemma all_chars_append p s1 s2 :
  Py.all_chars p (s1 +:+ s2) = Py.all_chars p s1 && Py.all_chars p s2.
Proof.
  induction s1 as [|c s1 IH]; [done|].
  change (String c s1 +:+ s2) with (String c (s1 +:+ s2)). simpl.
  by rewrite IH, andb_assoc.
Qed.

Lemma keep_only_all p s : Py.all_chars p (Werkzeug.keep_only p s) = true.
Proof.
  induction s as [|c s IH]; simpl; [done|].
  destruct (p c) eqn:Hc; simpl; [by rewrite Hc|done].
Qed.

Lemma lstrip_by_all_chars p q s :
  Py.all_chars q s = true -> Py.all_chars q (Py.lstrip_by p s) = true.
Proof.
  induction s as [|c s IH]; simpl; [done|].
  intros [Hc Hs]%andb_true_iff. destruct (p c); [by apply IH|].
  simpl. by rewrite Hc, Hs.
Qed.

Lemma rstrip_by_all_chars p q s :
  Py.all_chars q s = true -> Py.all_chars q (Py.rstrip_by p s) = true.
Proof.
  induction s as [|c s IH]; simpl; [done|].
  intros [Hc Hs]%andb_true_iff. specialize (IH Hs).
  destruct (Py.rstrip_by p s) as [|d r].
  - destruct (p c); simpl; [done | by rewrite Hc].
  - simpl in *. by rewrite Hc, IH.
Qed.

(** What [strip(chars)] returns does not begin with one of the
    characters. *)
Lemma strip_chars_head chars s :
  match Py.strip_chars chars s with
  | EmptyString => True
  | String c _ => Py.contains_char c chars = false
  end.
Proof.
  unfold Py.strip_chars. set (p := fun c => Py.contains_char c chars).
  assert (match Py.lstrip_by p s with
          | EmptyString => True
          | String c _ => p c = false
          end) as Hl.
  { induction s as [|c s IH]; simpl; [done|]. by destruct (p c) eqn:Hc. }
  destruct (Py.lstrip_by p s) as [|c t]; simpl; [done|].
  destruct (Py.rstrip_by p t); [by rewrite Hl | done].
Qed.

(** [secure_filename] returns the empty name or a plain one. *)
Lemma secure_filename_plain (filename : string) :
  Werkzeug.secure_filename filename <> "" ->
  plain_name (Werkzeug.secure_filename filename).
Proof.
  unfold Werkzeug.secure_filename, plain_name. intros Hne.
  set (kept_part := Werkzeug.keep_only Werkzeug.kept _) in *.
  split.
  - unfold Py.strip_chars. apply rstrip_by_all_chars, lstrip_by_all_chars.
    apply keep_only_all.
  - pose proof (strip_chars_head "._" kept_part) as Hhead.
    destruct (Py.strip_chars "._" kept_part) as [|c t]; [done|].
    intros ->. done.
Qed.

Lemma digit_kept n : Werkzeug.kept (Py.digit n) = true.
Proof.
  unfold Py.digit.
  assert (0 <= n mod 10 < 10) as Hm by (apply Z.mod_pos_bound; lia).
  assert (n mod 10 = 0 \/ n mod 10 = 1 \/ n mod 10 = 2 \/ n mod 10 = 3
          \/ n mod 10 = 4 \/ n mod 10 = 5 \/ n mod 10 = 6 \/ n mod 10 = 7
          \/ n mod 10 = 8 \/ n mod 10 = 9) as Hcases by lia.
  destruct Hcases as [->|[->|[->|[->|[->|[->|[->|[->|[->| ->]]]]]]]]]; reflexivity.
Qed.

Lemma strftime_suffix_kept t : Py.all_chars Werkzeug.kept (strftime_suffix t) = true.
Proof.
  unfold strftime_suffix, Py.pad4, Py.pad2.
  rewrite !all_chars_append. simpl. rewrite !digit_kept. reflexivity.
Qed.

(** The name given on a collision to a plain name is a plain name. *)
Lemma collision_name_plain (f : string) (t : datetime) :
  plain_name f -> plain_name (collision_name f (strftime_suffix t)).
Proof.
  intros [Hkept Hhead]. unfold collision_name, plain_name.
  pose proof (strftime_suffix_kept t) as Hts.
  destruct (Py.rsplit_dot f) as [[name ext]|] eqn:Hsplit; simpl.
  - apply rsplit_dot_Some in Hsplit as [-> _].
    rewrite !all_chars_append in Hkept.
    apply andb_true_iff in Hkept as [Hname [_ Hext]%andb_true_iff].
    destruct name as [|c name]; [by destruct Hhead|].
    case_bool_decide; (split; [|done]);
      rewrite !all_chars_append, Hname, Hts, ?Hext; reflexivity.
  - destruct f as [|c f]; [done|]. split; [|done].
    by rewrite !all_chars_append, Hkept, Hts.
Qed.

Lemma plain_name_component (f : string) :
  plain_name f -> Py.contains_char "/" f = false /\ f <> "." /\ f <> "..".
Proof.
  intros [Hkept Hhead]. split; [|split].
  - clear Hhead. induction f as [|c f IH]; simpl in *; [done|].
    apply andb_true_iff in Hkept as [Hc Hf].
    destruct (decide ("/"%char = c)) as [<-|_]; [done | by apply IH].
  - intros ->. by apply Hhead.
  - intros ->. by apply Hhead.
Qed.

Lemma stored_of_explained {A} (explained : A -> outcome -> Prop)
    (files : list A) (os : list outcome) (info : FileInfo.t) :
  Forall2 explained files os -> info ∈ stored_of os ->
  exists file, file ∈ files /\ explained file (Stored info).
Proof.
  induction 1 as [|file o files os Ho _ IH]; [by intros ?%elem_of_nil|].
  assert (stored_of (o :: os) = stored_of [o] ++ stored_of os) as ->
    by (unfold stored_of; by destruct o).
  intros [Hin|Hin]%elem_of_app.
  - exists file. split; [by left|].
    destruct o as [| |info']; try by apply elem_of_nil in Hin.
    change (stored_of [Stored info']) with [info'] in Hin.
    by apply list_elem_of_singleton in Hin as ->.
  - destruct (IH Hin) as (file' & Hfile & Hexp). exists file'. split; [by right|done].
Qed.

Lemma errors_of_explained {A} (explained : A -> outcome -> Prop)
    (files : list A) (os : list outcome) (e : file_error) :
  Forall2 explained files os -> e ∈ errors_of os ->
  exists file, file ∈ files /\ explained file (Rejected e).
Proof.
  induction 1 as [|file o files os Ho _ IH]; [by intros ?%elem_of_nil|].
  assert (errors_of (o :: os) = errors_of [o] ++ errors_of os) as ->
    by (unfold errors_of; by destruct o).
  intros [Hin|Hin]%elem_of_app.
  - exists file. split; [by left|].
    destruct o as [|e'|]; try by apply elem_of_nil in Hin.
    change (errors_of [Rejected e']) with [e'] in Hin.
    by apply list_elem_of_singleton in Hin as ->.
  - destruct (IH Hin) as (file' & Hfile & Hexp). exists file'. split; [by right|done].
Qed.

Section Component.

Variable clock : nat -> datetime.
Variable guess_type : string -> option string.

Lemma target_plain (file : FileStorage) (target : string) :
  writable Werkzeug.secure_filename file ->
  target_of Werkzeug.secure_filename file target ->
  plain_name target.
Proof.
  intros (_ & _ & Hne) [->|(t & ->)].
  - by apply secure_filename_plain.
  - by apply collision_name_plain, secure_filename_plain.
Qed.

(** X12: with the sanitizer of werkzeug, an upload writes only under
    plain names: every name in the list of stored files, and every name
    a write failed under, is made of ASCII letters, digits, underscores,
    dashes and dots and does not begin with a dot; it has no slash and
    is neither "." nor "..", so the path it is joined to stays in the
    directory of the bucket. *)
Theorem upload_names_stay_in_bucket (b : string) (files : list FileStorage)
    (w : World) (target : string) :
  written_under
    (upload_file clock Werkzeug.secure_filename guess_type b (Some files) w).1
    target ->
  plain_name target
  /\ Py.contains_char "/" target = false /\ target <> "." /\ target <> "..".
Proof.
  intros Hlisted.
  assert (plain_name target) as Hplain; [|split; [done | by apply plain_name_component]].
  revert Hlisted. unfold written_under, upload_file.
  destruct (query_first b (db w)).
  2: { by intros [(?&?&?&?&_)|[(?&?&?&?&_)|(?&?&?&_)]]. }
  destruct (bool_decide (files = []) || _).
  { by intros [(?&?&?&?&_)|[(?&?&?&?&_)|(?&?&?&_)]]. }
  destruct (Path.mkdir_exist_ok (fs w) b) as [e|root].
  { by intros [(?&?&?&?&_)|[(?&?&?&?&_)|(?&?&?&_)]]. }
  destruct (upload_loop clock Werkzeug.secure_filename guess_type b files
              (mk_upload root (reads w) [] [])) as [[e st]|st] eqn:Hloop.
  { by intros [(?&?&?&?&_)|[(?&?&?&?&_)|(?&?&?&_)]]. }
  destruct (upload_loop_trace clock Werkzeug.secure_filename guess_type b files _ st Hloop)
    as (os & Hos & Hup & Herr & _).
  simpl in Hup, Herr. rewrite Hup, Herr.
  assert (forall info, info ∈ stored_of os -> plain_name (FileInfo.name info)) as Hstored.
  { intros info Hin.
    destruct (stored_of_explained _ _ _ _ Hos Hin)
      as (file & _ & Hw & name & mtime & Ht & ->).
    simpl. by apply (target_plain file). }
  assert (forall e, FailedToSave target e ∈ errors_of os -> plain_name target) as Hfailed.
  { intros e Hin.
    destruct (errors_of_explained _ _ _ _ Hos Hin) as (file & _ & Hw & Ht).
    by apply (target_plain file). }
  destruct (negb (bool_decide (stored_of os = []))); simpl.
  - intros [(infos & errs & info & [= <- <-] & Hin & <-)
           |[(infos & errs & e & [= <- Herrs] & Hin)|(? & ? & ? & _)]];
      [by apply Hstored| |done].
    case_bool_decide; [done|]. injection Herrs as <-. by apply (Hfailed e).
  - intros [(?&?&?&?&_)|[(?&?&?&?&_)|(errs & e & [= <-] & Hin)]];
      [done|done|]. by apply (Hfailed e).
Qed.

End Component.

Lemma upload_names_stay_in_bucket_witness :
  plain_name "a_20260101_000000.txt"
  /\ Py.contains_char "/" "a_20260101_000000.txt" = false.
Proof.
  destruct (upload_names_stay_in_bucket stopped_clock Mimetypes.guess_type "docs"
              [mk_file "../a.txt" "new"] docs_world "a_20260101_000000.txt")
    as (Hplain & Hslash & _).
  - left. eexists _, _, _. split; [reflexivity|]. split; [by left | reflexivity].
  - split; [exact Hplain | exact Hslash].
Defined.
